(** * homebridge-plugin-bwaspa: the pump and thermostat accessories

    A shallow embedding of [src/pumpAccessory.ts] and
    [src/thermostatAccessory.ts], and the properties of their get/set
    handlers.

    Modelling conventions.
    - A JavaScript [number] is an exact rational ([Q]); every literal of
      the two files (26.5, 36.0, 100.0, 10.0, 40.0, 0.5) is one.  Numbers
      that are integral by construction (the result of [Math.round], an
      array index, the pump number) are in [Z].
    - [value as boolean] and [value as number] are type annotations: the
      handlers take a [bool] or a [Q].
    - A JavaScript value that is a string or [undefined] (an array read out
      of range) is an [option string].
    - The spa client ([this.platform.spa]) is an interface, [SpaClient]:
      the handlers are written against it and never look inside.
    - A handler is a state transformer over the world it acts on: the spa
      and a trace of what it did to the outside, in order (the mutating
      calls on the spa, the calls on the HomeKit service, the warnings and
      the callback).  [log.debug] calls compute nothing and are left out. *)

From Stdlib Require Import ZArith QArith Qround Lia.
From Stdlib Require Import Lqa.
From stdpp Require Import base decidable strings list.

(** ** JavaScript numbers *)

Module JS.

(** [x < y] on numbers. *)
Definition lt (x y : Q) : bool :=
  match (x ?= y)%Q with Lt => true | _ => false end.

(** [x > y] on numbers. *)
Definition gt (x y : Q) : bool := lt y x.

(** [x != y] on numbers. *)
Definition neq (x y : Q) : bool := negb (Qeq_bool x y).

(** [Math.round]: the nearest integer, a tie going towards +infinity. *)
Definition Math_round (x : Q) : Z := Qfloor (x + 0.5).

(** [undefined], where a string was expected. *)
Definition undefined : option string := None.

(** [a[i]] for an array of strings and a number that is an integer. *)
Definition index (a : list string) (i : Z) : option string :=
  if (i <? 0)%Z then undefined else a !! Z.to_nat i.

(** [a.indexOf(x)]: the first position of [x], or -1. *)
Fixpoint indexOf_from (a : list string) (x : option string) (i : Z) : Z :=
  match a with
  | [] => (-1)%Z
  | y :: a' => if decide (x = Some y) then i else indexOf_from a' x (i + 1)
  end.

Definition indexOf (a : list string) (x : option string) : Z :=
  indexOf_from a x 0.

End JS.

(** ** The spa client: what the accessories use of [this.platform.spa] *)

Module spaClient.

(** The interface of the spa client, and the two flow states that
    [thermostatAccessory.ts] imports from it.  A getter reads the
    client's state; a setter gives the next state. *)
Class SpaClient (Spa Flow : Type) := {
  flow_eq_dec :: EqDecision Flow;
  FLOW_GOOD : Flow;
  FLOW_FAILED : Flow;
  get_pump1 : Spa -> option string;
  get_pump2 : Spa -> option string;
  get_pump3 : Spa -> option string;
  set_pump1 : option string -> Spa -> Spa;
  set_pump2 : option string -> Spa -> Spa;
  set_pump3 : option string -> Spa -> Spa;
  getCurrentTemp : Spa -> Q;
  getTargetTemp : Spa -> Q;
  setTargetTemperature : Q -> Spa -> Spa;
  getTempIsCorF : Spa -> string;
  getIsHeatingNow : Spa -> bool;
  getTempRangeIsHigh : Spa -> bool;
  setTempRangeIsHigh : bool -> Spa -> Spa;
  getFlowState : Spa -> Flow
}.

(** The mutating calls, as they appear in a trace. *)
Inductive Call :=
| Set_pump1 (v : option string)
| Set_pump2 (v : option string)
| Set_pump3 (v : option string)
| SetTargetTemperature (t : Q)
| SetTempRangeIsHigh (b : bool).

Definition perform `{SpaClient Spa Flow} (c : Call) (s : Spa) : Spa :=
  match c with
  | Set_pump1 v => set_pump1 v s
  | Set_pump2 v => set_pump2 v s
  | Set_pump3 v => set_pump3 v s
  | SetTargetTemperature t => setTargetTemperature t s
  | SetTempRangeIsHigh b => setTempRangeIsHigh b s
  end.

End spaClient.

(** ** The world of a handler *)

Module Platform.
Import spaClient.

(** The characteristics a handler updates. *)
Inductive characteristic :=
| TargetTemperature
| TargetHeatingCoolingState.

(** What a handler hands to its callback: [null] or an [Error], and the
    value of a get. *)
Inductive value :=
| Bool (b : bool)
| Number (n : Q).

Inductive Event :=
| Oracle (c : Call)
| UpdateValue (c : characteristic) (v : Q)
| SetProps (c : characteristic) (minValue maxValue minStep : Q)
| SetValidValues (c : characteristic) (minValue maxValue : Q)
    (validValues : list Q)
| Warn (msg : string) (arg : Q)
| Callback (err : option string) (v : option value).

Record World (Spa : Type) := mkWorld {
  spa : Spa;
  trace : list Event
}.
Arguments mkWorld {Spa} _ _.
Arguments spa {Spa} _.
Arguments trace {Spa} _.

End Platform.

(** ** A state monad for the handlers *)

Definition M (St A : Type) : Type := St -> A * St.

Definition ret {St A} (a : A) : M St A := fun s => (a, s).

Definition bind {St A B} (m : M St A) (k : A -> M St B) : M St B :=
  fun s => let (a, s') := m s in k a s'.

Definition gets {St A} (f : St -> A) : M St A := fun s => (f s, s).

Definition modify {St} (f : St -> St) : M St unit := fun s => (tt, f s).

(** The state a handler leaves. *)
Definition exec {St A} (m : M St A) (s : St) : St := snd (m s).

Declare Scope handler_scope.
Delimit Scope handler_scope with handler.
Notation "x <- m ;; k" := (bind m (fun x => k))
  (at level 100, m at next level, right associativity) : handler_scope.
Notation "m ;; k" := (bind m (fun _ => k))
  (at level 100, right associativity) : handler_scope.

(** The primitive actions of a handler on its world. *)

Section Actions.
Import spaClient Platform.
Context `{SpaClient Spa Flow}.

(** Read the spa through one of its getters. *)
Definition ask {A} (getter : Spa -> A) : M (World Spa) A :=
  gets (fun w => getter (spa w)).

(** Call one of the spa's setters: the spa moves on and the call is
    recorded. *)
Definition call (c : Call) : M (World Spa) unit :=
  modify (fun w => mkWorld (perform c (spa w)) (trace w ++ [Oracle c])).

(** An action on the outside that leaves the spa alone. *)
Definition emit (e : Event) : M (World Spa) unit :=
  modify (fun w => mkWorld (spa w) (trace w ++ [e])).

End Actions.

(** ** The constants of HomeKit's characteristics *)

Module Characteristic.

Module TargetHeatingCoolingState.
Definition OFF : Q := 0.
Definition HEAT : Q := 1.
Definition COOL : Q := 2.
Definition AUTO : Q := 3.
End TargetHeatingCoolingState.

Module CurrentHeatingCoolingState.
Definition OFF : Q := 0.
Definition HEAT : Q := 1.
Definition COOL : Q := 2.
End CurrentHeatingCoolingState.

Module TemperatureDisplayUnits.
Definition CELSIUS : Q := 0.
Definition FAHRENHEIT : Q := 1.
End TemperatureDisplayUnits.

End Characteristic.

(** ** thermostatAccessory.ts *)

Module ThermostatAccessory.
Import spaClient Platform.
Local Open Scope handler_scope.
Local Open Scope Q_scope.

Section Handlers.
Context `{SpaClient Spa Flow}.

(** [new Error(msg)] is its message. *)
Definition Error (msg : string) : option string := Some msg.

Definition setTargetTempMinMax : M (World Spa) unit :=
  emit (SetProps TargetTemperature 10.0 40.0 0.5).

Definition getCurrentTemperature : M (World Spa) unit :=
  temperature <- ask getCurrentTemp ;;
  emit (Callback None (Some (Number temperature))).

Definition getTemperatureDisplayUnits : M (World Spa) unit :=
  cOrF <- ask getTempIsCorF ;;
  let units :=
    if decide (cOrF = "Fahrenheit"%string)
    then Characteristic.TemperatureDisplayUnits.FAHRENHEIT
    else Characteristic.TemperatureDisplayUnits.CELSIUS in
  emit (Callback None (Some (Number units))).

Definition getHeatingState : M (World Spa) unit :=
  heating <- ask getIsHeatingNow ;;
  emit (Callback None
          (Some (Number (if heating : bool
                         then Characteristic.CurrentHeatingCoolingState.HEAT
                         else Characteristic.CurrentHeatingCoolingState.OFF)))).

Definition getTargetHeatingState : M (World Spa) unit :=
  mode <- ask getTempRangeIsHigh ;;
  flow <- ask getFlowState ;;
  let flowError := bool_decide (flow = FLOW_FAILED) in
  let result :=
    if flowError then Characteristic.TargetHeatingCoolingState.OFF
    else if mode : bool then Characteristic.TargetHeatingCoolingState.HEAT
         else Characteristic.TargetHeatingCoolingState.COOL in
  emit (Callback None (Some (Number result))).

(** The constructor, as far as it sets the properties of characteristics:
    the range of TargetTemperature (line 42) and the values that
    TargetHeatingCoolingState may take (lines 48-53). *)
Definition constructor : M (World Spa) unit :=
  setTargetTempMinMax ;;
  emit (SetValidValues TargetHeatingCoolingState 0 2 [0; 1; 2]).

(** What [setTargetHeatingState] does once the request has passed its
    checks (lines 156-167). *)
Definition applyTargetHeatingState (value : Q) : M (World Spa) unit :=
  let heating := Qeq_bool value Characteristic.TargetHeatingCoolingState.HEAT in
  call (SetTempRangeIsHigh heating) ;;
  setTargetTempMinMax ;;
  target <- ask getTargetTemp ;;
  emit (UpdateValue TargetTemperature target) ;;
  emit (Callback None None).

Definition setTargetHeatingState (value : Q) : M (World Spa) unit :=
  if Qeq_bool value Characteristic.TargetHeatingCoolingState.OFF then
    flow <- ask getFlowState ;;
    if bool_decide (flow = FLOW_GOOD) then
      emit (Callback (Error "Spa doesn't allow turned heating off. Reverting.") None)
    else applyTargetHeatingState value
  else
    flow <- ask getFlowState ;;
    if bool_decide (flow = FLOW_FAILED) then
      emit (Callback (Error "Water flow has failed. Heating off") None)
    else applyTargetHeatingState value.

Definition getTargetTemperature : M (World Spa) unit :=
  temperature <- ask getTargetTemp ;;
  emit (Callback None (Some (Number temperature))).

(** What [setTargetTemperature] does with a temperature that passed its
    check (lines 202-206). *)
Definition storeTargetTemperature (temp : Q) : M (World Spa) unit :=
  call (SetTargetTemperature temp) ;;
  emit (Callback None None).

Definition setTargetTemperature (value : Q) : M (World Spa) unit :=
  let temp := value in
  high <- ask getTempRangeIsHigh ;;
  if high : bool then
    if JS.lt temp 26.5 then
      let temp := 26.5 in
      emit (UpdateValue TargetTemperature temp) ;;
      emit (Callback (Error "Temperature out of bounds [26.5,40.0]") None)
    else storeTargetTemperature temp
  else
    if JS.gt temp 36.0 then
      let temp := 36.0 in
      emit (UpdateValue TargetTemperature temp) ;;
      emit (Callback (Error "Temperature out of bounds [10.0,36.0]") None)
    else storeTargetTemperature temp.

End Handlers.

End ThermostatAccessory.

(** ** pumpAccessory.ts *)

Module PumpAccessory.
Import spaClient Platform.
Local Open Scope handler_scope.

(** [accessory.context.device], as far as the constructor reads it. *)
Record Device := mkDevice {
  name : string;
  pumpRange : Q
}.

(** [this.states]. *)
Record States := mkStates {
  lastSpeed : Z
}.

(** [this]: the platform it talks to and its own fields. *)
Record PumpAccessory (Spa : Type) := mkPump {
  platform : World Spa;
  pumpNumber : Z;
  states : States;
  speedSettings : Q
}.
Arguments mkPump {Spa} _ _ _ _.
Arguments platform {Spa} _.
Arguments pumpNumber {Spa} _.
Arguments states {Spa} _.
Arguments speedSettings {Spa} _.

(** Where we have a 1 speed pump, only 'Off' and 'High' are used. *)
Definition speeds : list string := ["Off"; "Low"; "High"]%string.

Section Handlers.
Context `{SpaClient Spa Flow}.

(** An action of [this.platform]. *)
Definition on_platform {A} (m : M (World Spa) A) : M (PumpAccessory Spa) A :=
  fun this =>
    let (a, w) := m (platform this) in
    (a, mkPump w (pumpNumber this) (states this) (speedSettings this)).

(** [this.states.lastSpeed = speed]. *)
Definition set_lastSpeed (speed : Z) : M (PumpAccessory Spa) unit :=
  modify (fun this =>
    mkPump (platform this) (pumpNumber this) (mkStates speed) (speedSettings this)).

(** The constructor (lines 44-48): the speed settings come from the
    configuration and are put right when they are not 1 or 2;
    [states.lastSpeed] starts at 2. *)
Definition constructor (platform : World Spa) (accessory : Device)
    (pumpNumber : Z) : PumpAccessory Spa :=
  let this := mkPump platform pumpNumber (mkStates 2) (pumpRange accessory) in
  if JS.neq (speedSettings this) 1 && JS.neq (speedSettings this) 2 then
    let (_, platform') :=
      emit (Warn "Bad speed settings:" (speedSettings this)) platform in
    mkPump platform' pumpNumber (mkStates 2) 1%Q
  else this.

Definition getSpeed : M (PumpAccessory Spa) Z :=
  n <- gets pumpNumber ;;
  if (n =? 1)%Z then
    level <- on_platform (ask get_pump1) ;; ret (JS.indexOf speeds level)
  else if (n =? 2)%Z then
    level <- on_platform (ask get_pump2) ;; ret (JS.indexOf speeds level)
  else if (n =? 3)%Z then
    level <- on_platform (ask get_pump3) ;; ret (JS.indexOf speeds level)
  else ret 0%Z.

Definition setSpeed (speed : Z) : M (PumpAccessory Spa) unit :=
  n <- gets pumpNumber ;;
  (if (n =? 1)%Z then on_platform (call (Set_pump1 (JS.index speeds speed)))
   else if (n =? 2)%Z then on_platform (call (Set_pump2 (JS.index speeds speed)))
   else if (n =? 3)%Z then on_platform (call (Set_pump3 (JS.index speeds speed)))
   else ret tt) ;;
  if negb (speed =? 0)%Z then set_lastSpeed speed else ret tt.

Definition setOn (value : bool) : M (PumpAccessory Spa) unit :=
  (if value then
     last <- gets (fun this => lastSpeed (states this)) ;; setSpeed last
   else setSpeed 0) ;;
  on_platform (emit (Callback None None)).

Definition getOn : M (PumpAccessory Spa) unit :=
  speed <- getSpeed ;;
  let isOn := negb (speed =? 0)%Z in
  on_platform (emit (Callback None (Some (Bool isOn)))).

Definition setRotationSpeed (value : Q) : M (PumpAccessory Spa) unit :=
  settings <- gets speedSettings ;;
  let speed := JS.Math_round (value * settings / 100.0) in
  setSpeed speed ;;
  on_platform (emit (Callback None None)).

Definition getRotationSpeed : M (PumpAccessory Spa) unit :=
  speed <- getSpeed ;;
  settings <- gets speedSettings ;;
  let value := ((100.0 * inject_Z speed) / settings)%Q in
  on_platform (emit (Callback None (Some (Number value)))).

(** The requests HomeKit can make of a pump, and a run of them. *)
Inductive Request :=
| SetOn (value : bool)
| GetOn
| SetRotationSpeed (value : Q)
| GetRotationSpeed.

Definition handle (r : Request) : M (PumpAccessory Spa) unit :=
  match r with
  | SetOn value => setOn value
  | GetOn => getOn
  | SetRotationSpeed value => setRotationSpeed value
  | GetRotationSpeed => getRotationSpeed
  end.

Fixpoint handle_all (rs : list Request) : M (PumpAccessory Spa) unit :=
  match rs with
  | [] => ret tt
  | r :: rs' => handle r ;; handle_all rs'
  end.

End Handlers.

End PumpAccessory.

(** ** A spa that stores what it is told *)

Module StoreSpa.
Import spaClient.

(** Modelled from the spec: the flow states of the device oracle
    ([FLOW_GOOD] and [FLOW_FAILED] are imported from [spaClient.ts], which
    is not among the sources); section 3 of the spec gives [FlowState] the
    two values [Good] and [Failed]. *)
Inductive FlowState := Good | Failed.

#[global] Instance FlowState_eq_dec : EqDecision FlowState.
Proof. solve_decision. Defined.

(** Modelled from the spec: the device oracle of section 6
    ([spaClient.ts] is not among the sources) as a synchronous state
    oracle, one field for each thing it reports; a setter overwrites its
    field and nothing else. *)
Record State := mkState {
  pump1 : option string;
  pump2 : option string;
  pump3 : option string;
  currentTemp : Q;
  targetTemp : Q;
  tempIsCorF : string;
  isHeatingNow : bool;
  tempRangeIsHigh : bool;
  flowState : FlowState
}.

#[global] Instance client : SpaClient State FlowState := {
  FLOW_GOOD := Good;
  FLOW_FAILED := Failed;
  get_pump1 := pump1;
  get_pump2 := pump2;
  get_pump3 := pump3;
  set_pump1 v s :=
    mkState v (pump2 s) (pump3 s) (currentTemp s) (targetTemp s)
      (tempIsCorF s) (isHeatingNow s) (tempRangeIsHigh s) (flowState s);
  set_pump2 v s :=
    mkState (pump1 s) v (pump3 s) (currentTemp s) (targetTemp s)
      (tempIsCorF s) (isHeatingNow s) (tempRangeIsHigh s) (flowState s);
  set_pump3 v s :=
    mkState (pump1 s) (pump2 s) v (currentTemp s) (targetTemp s)
      (tempIsCorF s) (isHeatingNow s) (tempRangeIsHigh s) (flowState s);
  getCurrentTemp := currentTemp;
  getTargetTemp := targetTemp;
  setTargetTemperature t s :=
    mkState (pump1 s) (pump2 s) (pump3 s) (currentTemp s) t
      (tempIsCorF s) (isHeatingNow s) (tempRangeIsHigh s) (flowState s);
  getTempIsCorF := tempIsCorF;
  getIsHeatingNow := isHeatingNow;
  getTempRangeIsHigh := tempRangeIsHigh;
  setTempRangeIsHigh b s :=
    mkState (pump1 s) (pump2 s) (pump3 s) (currentTemp s) (targetTemp s)
      (tempIsCorF s) (isHeatingNow s) b (flowState s);
  getFlowState := flowState
}.

(** A spa at rest: pumps off, 38 degrees wanted in the high range, water
    flowing. *)
Definition idle : State :=
  mkState (Some "Off"%string) (Some "Off"%string) (Some "Off"%string)
    37.5%Q 38.0%Q "Celsius"%string false true Good.

Definition with_range (high : bool) (s : State) : State :=
  setTempRangeIsHigh high s.

Definition with_flow (f : FlowState) (s : State) : State :=
  mkState (pump1 s) (pump2 s) (pump3 s) (currentTemp s) (targetTemp s)
    (tempIsCorF s) (isHeatingNow s) (tempRangeIsHigh s) f.

Definition world (s : State) : Platform.World State := Platform.mkWorld s [].

End StoreSpa.

(** ** Pumps on the spa that stores what it is told *)

Module Examples.
Import Platform PumpAccessory StoreSpa.

(** Pump 1 of a spa at rest, configured with one speed. *)
Definition one_speed_pump : PumpAccessory State :=
  constructor (world idle) (mkDevice "Pump 1" 1) 1.

(** Pump 1 of a spa at rest, configured with two speeds. *)
Definition two_speed_pump : PumpAccessory State :=
  constructor (world idle) (mkDevice "Pump 1" 2) 1.

(** Pump 2 of a spa at rest, with a configuration that names seven
    speeds. *)
Definition misconfigured_pump : PumpAccessory State :=
  constructor (world idle) (mkDevice "Pump 2" 7) 2.

End Examples.

(** ** Vocabulary of the statements *)

Module Spec.
Import spaClient Platform.

(** The setter of pump [n], for [n] one of 1, 2 and 3. *)
Definition set_pump (n : Z) (v : option string) : Call :=
  if (n =? 1)%Z then Set_pump1 v
  else if (n =? 2)%Z then Set_pump2 v
  else Set_pump3 v.

(** The getter of pump [n], for [n] one of 1, 2 and 3. *)
Definition get_pump `{SpaClient Spa Flow} (n : Z) : Spa -> option string :=
  if (n =? 1)%Z then get_pump1
  else if (n =? 2)%Z then get_pump2
  else get_pump3.

(** The spa returns for pump [n] the level last written to it. *)
Definition returns_last_written `{SpaClient Spa Flow} (n : Z) : Prop :=
  forall (v : option string) (s : Spa),
    get_pump n (perform (set_pump n v) s) = v.

(** A request that is not a speed set. *)
Definition no_speed_set (r : PumpAccessory.Request) : Prop :=
  match r with
  | PumpAccessory.SetRotationSpeed _ => False
  | _ => True
  end.

(** A request that is not a speed set to a level other than 0, on a pump
    with the given speed settings: a toggle, a get, or a speed set that
    resolves to level 0. *)
Definition no_nonzero_speed_set (settings : Q) (r : PumpAccessory.Request) : Prop :=
  match r with
  | PumpAccessory.SetRotationSpeed value =>
      JS.Math_round (value * settings / 100.0) = 0%Z
  | _ => True
  end.

End Spec.

(** ** Runs of requests, and what to look for in a trace *)

Module Runs.
Import spaClient Platform.
Local Open Scope handler_scope.

(** The requests HomeKit can make of the thermostat, and a run of them. *)
Inductive ThermostatRequest :=
| GetCurrentTemperature
| GetTemperatureDisplayUnits
| GetHeatingState
| GetTargetHeatingState
| SetTargetHeatingStateTo (value : Q)
| GetTargetTemperature
| SetTargetTemperatureTo (value : Q).

Section Thermostat.
Context `{SpaClient Spa Flow}.

Definition handle (r : ThermostatRequest) : M (World Spa) unit :=
  match r with
  | GetCurrentTemperature => ThermostatAccessory.getCurrentTemperature
  | GetTemperatureDisplayUnits => ThermostatAccessory.getTemperatureDisplayUnits
  | GetHeatingState => ThermostatAccessory.getHeatingState
  | GetTargetHeatingState => ThermostatAccessory.getTargetHeatingState
  | SetTargetHeatingStateTo value => ThermostatAccessory.setTargetHeatingState value
  | GetTargetTemperature => ThermostatAccessory.getTargetTemperature
  | SetTargetTemperatureTo value => ThermostatAccessory.setTargetTemperature value
  end.

Fixpoint handle_all (rs : list ThermostatRequest) : M (World Spa) unit :=
  match rs with
  | [] => ret tt
  | r :: rs' => handle r ;; handle_all rs'
  end.

End Thermostat.

(** A get of the thermostat. *)
Definition thermostat_get (r : ThermostatRequest) : Prop :=
  match r with
  | SetTargetHeatingStateTo _ | SetTargetTemperatureTo _ => False
  | _ => True
  end.

(** A get of a pump. *)
Definition pump_get (r : PumpAccessory.Request) : Prop :=
  match r with
  | PumpAccessory.GetOn | PumpAccessory.GetRotationSpeed => True
  | _ => False
  end.

(** A pump request whose rotation speed, if it sets one, is a percentage. *)
Definition percentage (r : PumpAccessory.Request) : Prop :=
  match r with
  | PumpAccessory.SetRotationSpeed value => (0 <= value)%Q /\ (value <= 100)%Q
  | _ => True
  end.

(** The event is a call of the callback. *)
Definition is_callback (e : Event) : Prop :=
  match e with
  | Callback _ _ => True
  | _ => False
  end.

(** The event is the callback answering a get: no error, and a value. *)
Definition is_answer (e : Event) : Prop :=
  match e with
  | Callback None (Some _) => True
  | _ => False
  end.

(** The event is no call on the spa other than the setter of pump [n]. *)
Definition own_pump (n : Z) (e : Event) : Prop :=
  match e with
  | Oracle (Set_pump1 _) => n = 1%Z
  | Oracle (Set_pump2 _) => n = 2%Z
  | Oracle (Set_pump3 _) => n = 3%Z
  | Oracle _ => False
  | _ => True
  end.

(** If the event writes a pump, it writes one of the three levels of
    [speeds]. *)
Definition writes_level (e : Event) : Prop :=
  match e with
  | Oracle (Set_pump1 v) | Oracle (Set_pump2 v) | Oracle (Set_pump3 v) =>
      v = Some "Off"%string \/ v = Some "Low"%string \/ v = Some "High"%string
  | _ => True
  end.


End Runs.

(** ** More pumps and runs on the spa that stores what it is told *)

Module Scenes.
Import Platform PumpAccessory StoreSpa.

(** A pump set up with the number 4, which the spa does not have. *)
Definition stray_pump : PumpAccessory State :=
  constructor (world idle) (mkDevice "Pump 4" 2) 4.

(** A speed set, an off-toggle and an on-toggle. *)
Definition set_off_on : list Request :=
  [SetRotationSpeed 50; SetOn false; SetOn true].

End Scenes.

(** * Properties *)

(** ** Numbers *)

Lemma JS_lt_true (x y : Q) : (x < y)%Q -> JS.lt x y = true.
Proof.
  intros Hlt. unfold JS.lt.
  pose proof (proj1 (Qlt_alt x y) Hlt) as Hc. now rewrite Hc.
Qed.

Lemma JS_lt_false (x y : Q) : (y <= x)%Q -> JS.lt x y = false.
Proof.
  unfold JS.lt. intros Hle.
  destruct (x ?= y)%Q eqn:Hc; try reflexivity.
  exfalso. exact (Qle_not_lt _ _ Hle (proj2 (Qlt_alt x y) Hc)).
Qed.

Lemma JS_neq_false (x y : Q) : (x == y)%Q -> JS.neq x y = false.
Proof. unfold JS.neq. intros Heq. apply Qeq_bool_iff in Heq. now rewrite Heq. Qed.

Lemma JS_neq_true (x y : Q) : ~ (x == y)%Q -> JS.neq x y = true.
Proof.
  unfold JS.neq. intros Hne.
  destruct (Qeq_bool x y) eqn:Hb; [|reflexivity].
  apply Qeq_bool_iff in Hb. contradiction.
Qed.

Lemma Qeq_bool_true (x y : Q) : (x == y)%Q -> Qeq_bool x y = true.
Proof. apply Qeq_bool_iff. Qed.

Lemma Qeq_bool_false (x y : Q) : ~ (x == y)%Q -> Qeq_bool x y = false.
Proof.
  intros Hne. destruct (Qeq_bool x y) eqn:Hb; [|reflexivity].
  apply Qeq_bool_iff in Hb. contradiction.
Qed.

(** ** The thermostat *)

Module ThermostatProperties.
Import spaClient Platform ThermostatAccessory.
Import Characteristic.
Local Open Scope Q_scope.

Ltac run :=
  unfold exec, setTargetTemperature, setTargetHeatingState,
    getTargetHeatingState, getTargetTemperature, storeTargetTemperature,
    applyTargetHeatingState, setTargetTempMinMax,
    bind, ask, call, emit, gets, modify, ret; simpl.

Section WithSpa.
Context `{SpaClient Spa Flow}.

(** C1. A target temperature below 26.5 in the high range, or above 36.0
    in the low range, is not stored: the handler publishes the bound to
    the TargetTemperature characteristic and hands an error to the
    callback; it makes no call on the spa, whose state is what it was. *)
Theorem setTargetTemperature_out_of_bounds (w : World Spa) (value : Q) (high : bool) :
  getTempRangeIsHigh (spa w) = high ->
  (if high then value < 26.5 else 36.0 < value) ->
  exec (setTargetTemperature value) w =
    mkWorld (spa w)
      (trace w ++
         [UpdateValue TargetTemperature (if high then 26.5 else 36.0);
          Callback (Error (if high then "Temperature out of bounds [26.5,40.0]"
                           else "Temperature out of bounds [10.0,36.0]")) None]).
Proof.
  intros Hmode Hout. run. rewrite Hmode.
  destruct high.
  - rewrite (JS_lt_true _ _ Hout). simpl. now rewrite <- app_assoc.
  - unfold JS.gt. rewrite (JS_lt_true _ _ Hout). simpl. now rewrite <- app_assoc.
Qed.

(** C2. Off is refused while the water flows: the callback gets an error,
    no call is made on the spa ([setTempRangeIsHigh] in particular), and
    the temperature range the spa reports is the one it reported before. *)
Theorem setTargetHeatingState_off_refused_when_flow_good (w : World Spa) (value : Q) :
  value == TargetHeatingCoolingState.OFF ->
  getFlowState (spa w) = FLOW_GOOD ->
  exec (setTargetHeatingState value) w =
    mkWorld (spa w)
      (trace w ++
         [Callback (Error "Spa doesn't allow turned heating off. Reverting.") None])
  /\ getTempRangeIsHigh (spa (exec (setTargetHeatingState value) w)) =
       getTempRangeIsHigh (spa w).
Proof.
  intros Hoff Hflow. run.
  rewrite (Qeq_bool_true _ _ Hoff). simpl.
  rewrite Hflow, bool_decide_eq_true_2 by reflexivity.
  simpl. split; reflexivity.
Qed.

(** C3. Heat and Cool are refused once the flow has failed: the callback
    gets an error, no call is made on the spa, and the temperature range
    the spa reports is the one it reported before. *)
Theorem setTargetHeatingState_refused_when_flow_failed (w : World Spa) (value : Q) :
  value == TargetHeatingCoolingState.HEAT \/ value == TargetHeatingCoolingState.COOL ->
  getFlowState (spa w) = FLOW_FAILED ->
  exec (setTargetHeatingState value) w =
    mkWorld (spa w)
      (trace w ++ [Callback (Error "Water flow has failed. Heating off") None])
  /\ getTempRangeIsHigh (spa (exec (setTargetHeatingState value) w)) =
       getTempRangeIsHigh (spa w).
Proof.
  intros Hvalue Hflow. run.
  assert (Hnot : ~ value == TargetHeatingCoolingState.OFF).
  { intros Hoff. rewrite Hoff in Hvalue. destruct Hvalue; discriminate. }
  rewrite (Qeq_bool_false _ _ Hnot). simpl.
  rewrite Hflow, bool_decide_eq_true_2 by reflexivity.
  simpl. split; reflexivity.
Qed.

(** C4. [getTargetHeatingState] answers Off when the flow has failed,
    whatever the temperature range; with the flow good it answers Heat in
    the high range and Cool in the low one.  It changes nothing on the
    spa. *)
Theorem getTargetHeatingState_answer (w : World Spa) :
  FLOW_GOOD <> FLOW_FAILED ->
  exists result : Q,
    exec getTargetHeatingState w =
      mkWorld (spa w) (trace w ++ [Callback None (Some (Number result))])
    /\ (getFlowState (spa w) = FLOW_FAILED ->
          result = TargetHeatingCoolingState.OFF)
    /\ (getFlowState (spa w) = FLOW_GOOD ->
          getTempRangeIsHigh (spa w) = true ->
          result = TargetHeatingCoolingState.HEAT)
    /\ (getFlowState (spa w) = FLOW_GOOD ->
          getTempRangeIsHigh (spa w) = false ->
          result = TargetHeatingCoolingState.COOL).
Proof.
  intros Hdistinct. run. eexists. split; [reflexivity|].
  repeat split.
  - intros Hflow. rewrite Hflow, bool_decide_eq_true_2; reflexivity.
  - intros Hflow Hmode.
    rewrite Hflow, Hmode, bool_decide_eq_false_2; [reflexivity | exact Hdistinct].
  - intros Hflow Hmode.
    rewrite Hflow, Hmode, bool_decide_eq_false_2; [reflexivity | exact Hdistinct].
Qed.

(** C8. A target temperature inside the bound that the handler checks (at
    least 26.5 in the high range, at most 36.0 in the low range) is handed
    unchanged to the spa's [setTargetTemperature] and the callback gets no
    error; when the spa returns the target it was last given,
    [getTargetTemperature] then answers that very value. *)
Theorem setTargetTemperature_in_bounds (w : World Spa) (value : Q) (high : bool) :
  getTempRangeIsHigh (spa w) = high ->
  (if high then 26.5 <= value else value <= 36.0) ->
  let w' := exec (ThermostatAccessory.setTargetTemperature value) w in
  w' = mkWorld (spaClient.setTargetTemperature value (spa w))
         (trace w ++ [Oracle (SetTargetTemperature value); Callback None None])
  /\ ((forall t s, getTargetTemp (spaClient.setTargetTemperature t s) = t) ->
      exec getTargetTemperature w' =
        mkWorld (spa w') (trace w' ++ [Callback None (Some (Number value))])).
Proof.
  intros Hmode Hin w'.
  assert (Hw' : w' = mkWorld (spaClient.setTargetTemperature value (spa w))
            (trace w ++ [Oracle (SetTargetTemperature value); Callback None None])).
  { subst w'. run. rewrite Hmode. destruct high.
    - rewrite (JS_lt_false _ _ Hin). simpl. now rewrite <- app_assoc.
    - unfold JS.gt. rewrite (JS_lt_false _ _ Hin). simpl. now rewrite <- app_assoc. }
  split; [exact Hw'|].
  intros Hstore. rewrite Hw'. run. now rewrite Hstore.
Qed.

(** C10. Off with the flow failed is carried out, not only acknowledged:
    the handler calls [setTempRangeIsHigh(false)] on the spa, sets the
    properties of the TargetTemperature characteristic, publishes to it the
    target temperature read from the spa after that call, and gives the
    callback no error. *)
Theorem setTargetHeatingState_off_when_flow_failed (w : World Spa) (value : Q) :
  FLOW_GOOD <> FLOW_FAILED ->
  value == TargetHeatingCoolingState.OFF ->
  getFlowState (spa w) = FLOW_FAILED ->
  exec (setTargetHeatingState value) w =
    mkWorld (setTempRangeIsHigh false (spa w))
      (trace w ++
         [Oracle (SetTempRangeIsHigh false);
          SetProps TargetTemperature 10.0 40.0 0.5;
          UpdateValue TargetTemperature
            (getTargetTemp (setTempRangeIsHigh false (spa w)));
          Callback None None]).
Proof.
  intros Hdistinct Hoff Hflow. run.
  rewrite (Qeq_bool_true _ _ Hoff). simpl.
  rewrite Hflow, bool_decide_eq_false_2 by (intros Heq; apply Hdistinct; now symmetry).
  assert (Hheat : Qeq_bool value TargetHeatingCoolingState.HEAT = false).
  { apply Qeq_bool_false. rewrite Hoff. discriminate. }
  rewrite Hheat. simpl. now rewrite <- !app_assoc.
Qed.

End WithSpa.

(** The statements above at the spa that stores what it is told. *)

Import StoreSpa.

Lemma setTargetTemperature_out_of_bounds_witness :
  (getTempRangeIsHigh (spa (world idle)) = true /\ 20.0 < 26.5
   /\ getTempRangeIsHigh (spa (world (with_range false idle))) = false
   /\ 36.0 < 37.0)
  /\ exec (setTargetTemperature 20.0) (world idle) =
       mkWorld idle
         [UpdateValue TargetTemperature 26.5;
          Callback (Error "Temperature out of bounds [26.5,40.0]") None]
  /\ exec (setTargetTemperature 37.0) (world (with_range false idle)) =
       mkWorld (with_range false idle)
         [UpdateValue TargetTemperature 36.0;
          Callback (Error "Temperature out of bounds [10.0,36.0]") None].
Proof.
  split; [repeat split; reflexivity|]. split.
  - apply (setTargetTemperature_out_of_bounds (world idle) 20.0 true); reflexivity.
  - apply (setTargetTemperature_out_of_bounds
             (world (with_range false idle)) 37.0 false); reflexivity.
Defined.

Lemma setTargetHeatingState_off_refused_when_flow_good_witness :
  (0 == TargetHeatingCoolingState.OFF /\ getFlowState (spa (world idle)) = FLOW_GOOD)
  /\ getTempRangeIsHigh (spa (exec (setTargetHeatingState 0) (world idle))) = true.
Proof.
  split; [split; reflexivity|].
  destruct (setTargetHeatingState_off_refused_when_flow_good (world idle) 0)
    as [_ Hrange]; [reflexivity..|].
  rewrite Hrange. reflexivity.
Defined.

Lemma setTargetHeatingState_refused_when_flow_failed_witness :
  (2 == TargetHeatingCoolingState.COOL
   /\ getFlowState (spa (world (with_flow Failed idle))) = FLOW_FAILED)
  /\ exec (setTargetHeatingState 2) (world (with_flow Failed idle)) =
       mkWorld (with_flow Failed idle)
         [Callback (Error "Water flow has failed. Heating off") None].
Proof.
  split; [split; reflexivity|].
  apply (setTargetHeatingState_refused_when_flow_failed
           (world (with_flow Failed idle)) 2); [right; reflexivity | reflexivity].
Defined.

Lemma getTargetHeatingState_answer_witness :
  Good <> Failed
  /\ exists result : Q,
       exec getTargetHeatingState (world (with_flow Failed idle)) =
         mkWorld (with_flow Failed idle) [Callback None (Some (Number result))]
       /\ result = TargetHeatingCoolingState.OFF.
Proof.
  split; [discriminate|].
  destruct (getTargetHeatingState_answer (world (with_flow Failed idle)))
    as (result & Hexec & Hfailed & _); [discriminate|].
  exists result. split; [exact Hexec | apply Hfailed; reflexivity].
Defined.

Lemma setTargetTemperature_in_bounds_witness :
  (getTempRangeIsHigh (spa (world idle)) = true /\ 26.5 <= 30.0)
  /\ trace (exec getTargetTemperature (exec (setTargetTemperature 30.0) (world idle))) =
       [Oracle (SetTargetTemperature 30.0); Callback None None;
        Callback None (Some (Number 30.0))].
Proof.
  split; [split; [reflexivity | discriminate]|].
  destruct (setTargetTemperature_in_bounds (world idle) 30.0 true) as [Hset Hget];
    [reflexivity | discriminate |].
  rewrite Hget; [|reflexivity]. rewrite Hset. reflexivity.
Defined.

Lemma setTargetHeatingState_off_when_flow_failed_witness :
  (Good <> Failed /\ 0 == TargetHeatingCoolingState.OFF
   /\ getFlowState (spa (world (with_flow Failed idle))) = FLOW_FAILED)
  /\ tempRangeIsHigh
       (spa (exec (setTargetHeatingState 0) (world (with_flow Failed idle)))) = false.
Proof.
  split; [split; [discriminate | split; reflexivity]|].
  rewrite (setTargetHeatingState_off_when_flow_failed
             (world (with_flow Failed idle)) 0); [reflexivity | discriminate | reflexivity..].
Defined.

End ThermostatProperties.

(** ** The pump *)

Module PumpProperties.
Import spaClient Platform PumpAccessory Spec.
Local Open Scope Z_scope.

Ltac run :=
  unfold exec, handle, setOn, getOn, setRotationSpeed, getRotationSpeed,
    setSpeed, getSpeed, set_lastSpeed, on_platform,
    bind, ask, call, emit, gets, modify, ret; simpl.

(** Case analysis on the three tests of [this.pumpNumber]. *)
Ltac pump_cases n :=
  destruct (n =? 1) eqn:?; simpl;
  [| destruct (n =? 2) eqn:?; simpl;
     [| destruct (n =? 3) eqn:?; simpl ]].

(** Reading back what [speeds] holds at a level of the table. *)
Lemma indexOf_index (level : Z) :
  0 <= level <= 2 -> JS.indexOf speeds (JS.index speeds level) = level.
Proof.
  intros Hlevel.
  assert (Hcases : level = 0 \/ level = 1 \/ level = 2) by lia.
  destruct Hcases as [-> | [-> | ->]]; reflexivity.
Qed.

(** [Math.round] of a scaled percentage stays within the settings. *)
Lemma Math_round_percent (p settings : Q) (count : Z) :
  (settings == inject_Z count)%Q -> 0 <= count ->
  (0 <= p)%Q -> (p <= 100)%Q ->
  0 <= JS.Math_round (p * settings / 100.0) <= count.
Proof.
  intros Hsettings Hcount Hlow Hhigh. unfold JS.Math_round.
  assert (Hc : (0 <= inject_Z count)%Q).
  { change 0%Q with (inject_Z 0). now rewrite <- Zle_Qle. }
  split.
  - change 0 with (Qfloor 0). apply Qfloor_resp_le.
    rewrite Hsettings.
    apply Qle_trans with (0 + 0.5)%Q; [discriminate|].
    apply Qplus_le_compat; [|apply Qle_refl].
    apply Qle_shift_div_l; [reflexivity|].
    rewrite Qmult_0_l. now apply Qmult_le_0_compat.
  - assert (Hfloor : Qfloor (inject_Z count + 0.5) = count).
    { unfold Qfloor, inject_Z, Qplus. simpl.
      change ((count * 10 + 5) / 10 = count).
      rewrite Z.div_add_l by lia. change (5 / 10) with 0. lia. }
    rewrite <- Hfloor. apply Qfloor_resp_le.
    apply Qplus_le_compat; [|apply Qle_refl].
    rewrite Hsettings.
    apply Qle_shift_div_r; [reflexivity|].
    rewrite (Qmult_comm (inject_Z count) 100.0).
    apply Qmult_le_compat_r; [|assumption].
    apply Qle_trans with 100%Q; [assumption | discriminate].
Qed.

Section WithSpa.
Context `{SpaClient Spa Flow}.

(** The reader of pump [n], for [n] one of 1, 2 and 3. *)
Lemma getSpeed_run (this : PumpAccessory Spa) :
  1 <= pumpNumber this <= 3 ->
  getSpeed this =
    (JS.indexOf speeds (get_pump (pumpNumber this) (spa (platform this))), this).
Proof.
  intros Hn. destruct this as [[s tr] n [last] settings]. simpl in *.
  run. unfold get_pump. pump_cases n; try reflexivity. lia.
Qed.

Lemma setSpeed_run (this : PumpAccessory Spa) (speed : Z) :
  1 <= pumpNumber this <= 3 ->
  let c := set_pump (pumpNumber this) (JS.index speeds speed) in
  setSpeed speed this =
    (tt, mkPump (mkWorld (perform c (spa (platform this)))
                   (trace (platform this) ++ [Oracle c]))
           (pumpNumber this)
           (if speed =? 0 then states this else mkStates speed)
           (speedSettings this)).
Proof.
  intros Hn. destruct this as [[s tr] n [last] settings]. simpl in *.
  run. unfold set_pump.
  pump_cases n; try lia; destruct (speed =? 0); reflexivity.
Qed.

Lemma exec_seq {St} (m k : M St unit) (s : St) :
  exec (bind m (fun _ => k)) s = exec k (exec m s).
Proof. unfold exec, bind. now destruct (m s). Qed.

(** No handler touches [pumpNumber] or [speedSettings]. *)
Lemma handle_fields (r : Request) (this : PumpAccessory Spa) :
  pumpNumber (exec (handle r) this) = pumpNumber this
  /\ speedSettings (exec (handle r) this) = speedSettings this.
Proof.
  destruct this as [[s tr] n [last] settings].
  destruct r as [[|] | | value |]; run; pump_cases n;
    repeat match goal with
           | |- context [if ?b then _ else _] => destruct b; simpl
           end; split; reflexivity.
Qed.

(** Only a speed set can change [states.lastSpeed]. *)
Lemma handle_states (r : Request) (this : PumpAccessory Spa) :
  no_speed_set r -> states (exec (handle r) this) = states this.
Proof.
  destruct this as [[s tr] n [last] settings].
  destruct r as [[|] | | value |]; simpl; try contradiction; intros _;
    run; pump_cases n;
    repeat match goal with
           | |- context [if ?b then _ else _] => destruct b eqn:?; simpl
           end; try reflexivity.
Qed.

Lemma handle_all_fields (rs : list Request) (this : PumpAccessory Spa) :
  pumpNumber (exec (handle_all rs) this) = pumpNumber this
  /\ speedSettings (exec (handle_all rs) this) = speedSettings this.
Proof.
  revert this. induction rs as [|r rs IH]; intros this; [split; reflexivity|].
  simpl. rewrite exec_seq.
  destruct (IH (exec (handle r) this)) as [-> ->]. apply handle_fields.
Qed.

Lemma handle_all_states (rs : list Request) (this : PumpAccessory Spa) :
  Forall no_speed_set rs -> states (exec (handle_all rs) this) = states this.
Proof.
  intros Hrs. revert this.
  induction Hrs as [|r rs Hr _ IH]; intros this; [reflexivity|].
  simpl. rewrite exec_seq, IH. now apply handle_states.
Qed.

(** A speed set that resolves to level 0 leaves [states.lastSpeed] alone
    too. *)
Lemma handle_keeps_states (r : Request) (this : PumpAccessory Spa) :
  no_nonzero_speed_set (speedSettings this) r ->
  states (exec (handle r) this) = states this.
Proof.
  destruct r as [value | | value |]; try (intros _; now apply handle_states).
  simpl. intros Hzero.
  destruct this as [[s tr] n [last] settings]. simpl in Hzero.
  run. rewrite Hzero. simpl. pump_cases n; reflexivity.
Qed.

Lemma handle_all_keeps_states (rs : list Request) (this : PumpAccessory Spa) :
  Forall (no_nonzero_speed_set (speedSettings this)) rs ->
  states (exec (handle_all rs) this) = states this.
Proof.
  revert this. induction rs as [|r rs IH]; intros this Hrs; [reflexivity|].
  inversion Hrs as [|? ? Hr Hrest]; subst.
  simpl. rewrite exec_seq.
  destruct (handle_fields r this) as [_ Hsettings].
  rewrite IH by (rewrite Hsettings; exact Hrest).
  now apply handle_keeps_states.
Qed.

(** An on-toggle writes the level that [states.lastSpeed] holds. *)
Lemma setOn_true_run (this : PumpAccessory Spa) :
  1 <= pumpNumber this <= 3 ->
  lastSpeed (states this) <> 0 ->
  let c := set_pump (pumpNumber this) (JS.index speeds (lastSpeed (states this))) in
  exec (setOn true) this =
    mkPump (mkWorld (perform c (spa (platform this)))
              (trace (platform this) ++ [Oracle c; Callback None None]))
      (pumpNumber this) (states this) (speedSettings this).
Proof.
  intros Hn Hlast c. unfold exec, setOn, bind, gets.
  rewrite (setSpeed_run this _ Hn). fold c.
  apply Z.eqb_neq in Hlast. rewrite Hlast.
  destruct this as [[s tr] n [last] settings]. simpl.
  unfold on_platform, emit, modify. simpl. now rewrite <- app_assoc.
Qed.

Lemma setRotationSpeed_run (this : PumpAccessory Spa) (value : Q) :
  1 <= pumpNumber this <= 3 ->
  let level := JS.Math_round (value * speedSettings this / 100.0) in
  let c := set_pump (pumpNumber this) (JS.index speeds level) in
  exec (setRotationSpeed value) this =
    mkPump (mkWorld (perform c (spa (platform this)))
              (trace (platform this) ++ [Oracle c; Callback None None]))
      (pumpNumber this)
      (if level =? 0 then states this else mkStates level)
      (speedSettings this).
Proof.
  intros Hn level c. unfold exec, setRotationSpeed, bind, gets.
  rewrite (setSpeed_run this _ Hn). fold level c.
  unfold on_platform, emit, modify. simpl. now rewrite <- app_assoc.
Qed.

(** C5. The last speed is sticky.  After a speed set that resolves to a
    level other than 0, whatever on/off toggles, reads and speed sets to
    level 0 follow (no speed set to another level among them),
    [states.lastSpeed] is still that level and the next on-toggle writes
    it to the spa again; an off-toggle never changes [states.lastSpeed];
    and a pump that has had no speed set to a level other than 0 since its
    construction writes [speeds[2]], High, when toggled on.  The pump
    number is one of 1, 2 and 3, the pumps the spa has. *)
Theorem setOn_reproduces_last_speed :
  (forall (this : PumpAccessory Spa) (value : Q) (rs : list Request),
      1 <= pumpNumber this <= 3 ->
      Forall (no_nonzero_speed_set (speedSettings this)) rs ->
      let level := JS.Math_round (value * speedSettings this / 100.0) in
      level <> 0 ->
      let set := exec (setRotationSpeed value) this in
      let later := exec (handle_all rs) set in
      let c := set_pump (pumpNumber this) (JS.index speeds level) in
      trace (platform set) = trace (platform this) ++ [Oracle c; Callback None None]
      /\ lastSpeed (states later) = level
      /\ exec (setOn true) later =
           mkPump (mkWorld (perform c (spa (platform later)))
                     (trace (platform later) ++ [Oracle c; Callback None None]))
             (pumpNumber this) (mkStates level) (speedSettings this))
  /\ (forall this : PumpAccessory Spa,
        states (exec (setOn false) this) = states this)
  /\ (forall (w : World Spa) (accessory : Device) (n : Z) (rs : list Request),
        1 <= n <= 3 ->
        Forall (no_nonzero_speed_set (speedSettings (constructor w accessory n))) rs ->
        let later := exec (handle_all rs) (constructor w accessory n) in
        let c := set_pump n (Some "High"%string) in
        exec (setOn true) later =
          mkPump (mkWorld (perform c (spa (platform later)))
                    (trace (platform later) ++ [Oracle c; Callback None None]))
            n (mkStates 2) (speedSettings later)).
Proof.
  split; [|split].
  - intros this value rs Hn Hrs level Hlevel set later c.
    assert (Hset : set =
      mkPump (mkWorld (perform c (spa (platform this)))
                (trace (platform this) ++ [Oracle c; Callback None None]))
        (pumpNumber this) (mkStates level) (speedSettings this)).
    { subst set. rewrite (setRotationSpeed_run this value Hn).
      fold level c. apply Z.eqb_neq in Hlevel. now rewrite Hlevel. }
    assert (Hstates : states later = mkStates level).
    { subst later. rewrite (handle_all_keeps_states rs set); [now rewrite Hset|].
      rewrite Hset. exact Hrs. }
    destruct (handle_all_fields rs set) as [Hnum Hsettings]. fold later in Hnum, Hsettings.
    rewrite Hset in Hnum, Hsettings. simpl in Hnum, Hsettings.
    split; [now rewrite Hset|]. split; [now rewrite Hstates|].
    rewrite setOn_true_run; rewrite ?Hnum, ?Hstates, ?Hsettings; simpl; auto.
  - intros this. apply (handle_states (SetOn false) this I).
  - intros w accessory n rs Hn Hrs later c.
    assert (Hfresh : pumpNumber (constructor w accessory n) = n
                     /\ states (constructor w accessory n) = mkStates 2).
    { unfold constructor. simpl.
      destruct (JS.neq (pumpRange accessory) 1 && JS.neq (pumpRange accessory) 2);
        split; reflexivity. }
    destruct Hfresh as [Hfresh_n Hfresh_states].
    assert (Hstates : states later = mkStates 2).
    { subst later. now rewrite (handle_all_keeps_states rs _ Hrs). }
    destruct (handle_all_fields rs (constructor w accessory n)) as [Hnum _].
    fold later in Hnum. rewrite Hfresh_n in Hnum.
    rewrite setOn_true_run; rewrite ?Hnum, ?Hstates; simpl; auto.
Qed.

(** C6, as the code has it.  On a pump with one speed setting, a rotation
    speed of 50 resolves to level 1, not to 0: [Math.round] takes the tie
    0.5 upwards.  The handler writes [speeds[1]] to the spa, which is not
    Off, remembers 1 as the last speed and gives the callback no error. *)
Theorem setRotationSpeed_50_one_speed_rounds_up (this : PumpAccessory Spa) :
  1 <= pumpNumber this <= 3 ->
  (speedSettings this == 1)%Q ->
  let c := set_pump (pumpNumber this) (JS.index speeds 1) in
  JS.Math_round (50 * speedSettings this / 100.0) = 1
  /\ JS.index speeds 1 <> Some "Off"%string
  /\ exec (setRotationSpeed 50) this =
       mkPump (mkWorld (perform c (spa (platform this)))
                 (trace (platform this) ++ [Oracle c; Callback None None]))
         (pumpNumber this) (mkStates 1) (speedSettings this).
Proof.
  intros Hn Hone c.
  assert (Hlevel : JS.Math_round (50 * speedSettings this / 100.0) = 1).
  { unfold JS.Math_round. rewrite Hone. reflexivity. }
  split; [exact Hlevel|]. split; [discriminate|].
  rewrite (setRotationSpeed_run this 50 Hn). now rewrite Hlevel.
Qed.

(** C7. The round trip through the levels.  On a pump of the spa (number
    1, 2 or 3) with 1 or 2 speed settings [s], and a spa that returns for
    a pump the level last written to it: after [setRotationSpeed(p)] with
    [p] between 0 and 100, [getRotationSpeed] answers
    [round(p*s/100)*100/s], [round] being [Math.round]. *)
Theorem rotation_speed_round_trip (this : PumpAccessory Spa) (p : Q) :
  returns_last_written (pumpNumber this) ->
  1 <= pumpNumber this <= 3 ->
  (speedSettings this == 1 \/ speedSettings this == 2)%Q ->
  (0 <= p)%Q -> (p <= 100)%Q ->
  let s := speedSettings this in
  let set := exec (setRotationSpeed p) this in
  exists v : Q,
    exec getRotationSpeed set =
      mkPump (mkWorld (spa (platform set))
                (trace (platform set) ++ [Callback None (Some (Number v))]))
        (pumpNumber set) (states set) (speedSettings set)
    /\ (v == inject_Z (JS.Math_round (p * s / 100)) * 100 / s)%Q.
Proof.
  intros Hstore Hn Hs Hlow Hhigh s set.
  set (level := JS.Math_round (p * s / 100.0)).
  assert (Hlevel : 0 <= level <= 2).
  { destruct Hs as [Hs | Hs].
    - pose proof (Math_round_percent p s 1 Hs ltac:(lia) Hlow Hhigh). subst level. lia.
    - pose proof (Math_round_percent p s 2 Hs ltac:(lia) Hlow Hhigh). subst level. lia. }
  assert (Hset : set =
    mkPump (mkWorld (perform (set_pump (pumpNumber this) (JS.index speeds level))
                       (spa (platform this)))
              (trace (platform this) ++
                 [Oracle (set_pump (pumpNumber this) (JS.index speeds level));
                  Callback None None]))
      (pumpNumber this)
      (if level =? 0 then states this else mkStates level)
      (speedSettings this)).
  { subst set. now rewrite (setRotationSpeed_run this p Hn). }
  exists (100.0 * inject_Z level / s)%Q. split.
  - clearbody set. subst set.
    unfold exec, getRotationSpeed, bind, gets.
    rewrite getSpeed_run by exact Hn. simpl.
    rewrite (Hstore _ _), (indexOf_index _ Hlevel).
    reflexivity.
  - subst level.
    assert (Heq : (p * s / 100.0 == p * s / 100)%Q).
    { apply Qmult_comp; [reflexivity|]. reflexivity. }
    unfold JS.Math_round. rewrite Heq.
    assert (Hnz : ~ (s == 0)%Q).
    { intros Hz. fold s in Hs. rewrite Hz in Hs. destruct Hs; discriminate. }
    field. exact Hnz.
Qed.

(** C9. Whatever pump range the configuration gives, the constructed pump
    has 1 or 2 speed settings: a range that is 1 or 2 is kept, any other is
    replaced by 1 and a warning is logged (the constructor still returns
    the pump); and after any run of requests the speed settings are the
    ones the constructor left. *)
Theorem constructor_speedSettings (w : World Spa) (accessory : Device) (n : Z) :
  let this := constructor w accessory n in
  (speedSettings this == 1 \/ speedSettings this == 2)%Q
  /\ (~ (pumpRange accessory == 1)%Q -> ~ (pumpRange accessory == 2)%Q ->
      this = mkPump (mkWorld (spa w)
                       (trace w ++ [Warn "Bad speed settings:" (pumpRange accessory)]))
               n (mkStates 2) 1%Q)
  /\ ((pumpRange accessory == 1 \/ pumpRange accessory == 2)%Q ->
      this = mkPump w n (mkStates 2) (pumpRange accessory))
  /\ (forall rs : list Request,
        speedSettings (exec (handle_all rs) this) = speedSettings this
        /\ (speedSettings (exec (handle_all rs) this) == 1
            \/ speedSettings (exec (handle_all rs) this) == 2)%Q).
Proof.
  intros this.
  assert (Hrange : (speedSettings this == 1 \/ speedSettings this == 2)%Q).
  { subst this. unfold constructor. simpl. unfold JS.neq.
    destruct (Qeq_bool (pumpRange accessory) 1) eqn:H1; simpl.
    - left. now apply Qeq_bool_iff.
    - destruct (Qeq_bool (pumpRange accessory) 2) eqn:H2; simpl.
      + right. now apply Qeq_bool_iff.
      + left. reflexivity. }
  split; [exact Hrange|]. split; [|split].
  - intros H1 H2. subst this. unfold constructor. simpl.
    now rewrite (JS_neq_true _ _ H1), (JS_neq_true _ _ H2).
  - intros Hok. subst this. unfold constructor. simpl.
    destruct Hok as [Hok | Hok]; rewrite (JS_neq_false _ _ Hok); simpl.
    + reflexivity.
    + now rewrite andb_false_r.
  - intros rs. destruct (handle_all_fields rs this) as [_ Hsame].
    split; [exact Hsame|]. now rewrite Hsame.
Qed.

End WithSpa.

(** The statements above at the spa that stores what it is told. *)

Import StoreSpa Examples.

Lemma setOn_reproduces_last_speed_witness :
  (1 <= pumpNumber two_speed_pump <= 3
   /\ Forall (no_nonzero_speed_set (speedSettings two_speed_pump)) [SetOn false]
   /\ JS.Math_round (50 * speedSettings two_speed_pump / 100.0) <> 0
   /\ Forall (no_nonzero_speed_set (speedSettings one_speed_pump))
        [SetRotationSpeed 10])
  /\ trace (platform
             (exec (setOn true)
                (exec (handle_all [SetOn false])
                   (exec (setRotationSpeed 50) two_speed_pump)))) =
       [Oracle (Set_pump1 (Some "Low"%string)); Callback None None;
        Oracle (Set_pump1 (Some "Off"%string)); Callback None None;
        Oracle (Set_pump1 (Some "Low"%string)); Callback None None]
  /\ trace (platform
             (exec (setOn true)
                (exec (handle_all [SetRotationSpeed 10]) one_speed_pump))) =
       [Oracle (Set_pump1 (Some "Off"%string)); Callback None None;
        Oracle (Set_pump1 (Some "High"%string)); Callback None None].
Proof.
  assert (Hn : 1 <= pumpNumber two_speed_pump <= 3) by (simpl; lia).
  assert (Hrs : Forall (no_nonzero_speed_set (speedSettings two_speed_pump))
                  [SetOn false])
    by (constructor; [exact I | constructor]).
  assert (Hlevel : JS.Math_round (50 * speedSettings two_speed_pump / 100.0) <> 0)
    by discriminate.
  assert (Hzero : Forall (no_nonzero_speed_set (speedSettings one_speed_pump))
                    [SetRotationSpeed 10])
    by (constructor; [reflexivity | constructor]).
  split; [auto|].
  destruct (@setOn_reproduces_last_speed State FlowState client)
    as (Hsticky & _ & Hfresh).
  split.
  - destruct (Hsticky two_speed_pump 50%Q [SetOn false] Hn Hrs Hlevel)
      as (_ & _ & Hon).
    rewrite Hon. reflexivity.
  - unfold one_speed_pump in *.
    rewrite (Hfresh (world idle) (mkDevice "Pump 1" 1) 1 [SetRotationSpeed 10]
               ltac:(lia) Hzero).
    reflexivity.
Defined.

(** C6, as the spec has it, fails: on pump 1 configured with one speed, a
    rotation speed of 50 does not resolve to level 0, the call made on the
    spa is not [set_pump1("Off")], and the spa does not hold Off for the
    pump afterwards. *)
Lemma setRotationSpeed_50_one_speed_not_off :
  JS.Math_round (50 * speedSettings one_speed_pump / 100.0) <> 0
  /\ trace (platform (exec (setRotationSpeed 50) one_speed_pump)) <>
       [Oracle (Set_pump1 (Some "Off"%string)); Callback None None]
  /\ get_pump1 (spa (platform (exec (setRotationSpeed 50) one_speed_pump))) <>
       Some "Off"%string.
Proof. repeat split; discriminate. Qed.

Lemma setRotationSpeed_50_one_speed_rounds_up_witness :
  (1 <= pumpNumber one_speed_pump <= 3 /\ (speedSettings one_speed_pump == 1)%Q)
  /\ states (exec (setRotationSpeed 50) one_speed_pump) = mkStates 1
  /\ trace (platform (exec (setRotationSpeed 50) one_speed_pump)) =
       [Oracle (Set_pump1 (Some "Low"%string)); Callback None None].
Proof.
  assert (Hn : 1 <= pumpNumber one_speed_pump <= 3) by (simpl; lia).
  assert (Hone : (speedSettings one_speed_pump == 1)%Q) by reflexivity.
  split; [auto|].
  destruct (setRotationSpeed_50_one_speed_rounds_up one_speed_pump Hn Hone) as (_ & _ & Hrun).
  rewrite Hrun. split; reflexivity.
Defined.

Lemma rotation_speed_round_trip_witness :
  (returns_last_written (pumpNumber two_speed_pump)
   /\ 1 <= pumpNumber two_speed_pump <= 3
   /\ (speedSettings two_speed_pump == 2)%Q /\ (0 <= 50)%Q /\ (50 <= 100)%Q)
  /\ exists v : Q,
       trace (platform (exec getRotationSpeed
                          (exec (setRotationSpeed 50) two_speed_pump))) =
         [Oracle (Set_pump1 (Some "Low"%string)); Callback None None;
          Callback None (Some (Number v))]
       /\ (v == 50)%Q.
Proof.
  assert (Hn : 1 <= pumpNumber two_speed_pump <= 3) by (simpl; lia).
  assert (Hs : (speedSettings two_speed_pump == 2)%Q) by reflexivity.
  assert (Hlow : (0 <= 50)%Q) by discriminate.
  assert (Hhigh : (50 <= 100)%Q) by discriminate.
  assert (Hstore : returns_last_written (pumpNumber two_speed_pump))
    by (intros v s; reflexivity).
  split; [auto|].
  destruct (rotation_speed_round_trip two_speed_pump 50%Q Hstore Hn
              (or_intror Hs) Hlow Hhigh) as (v & Hget & Hv).
  exists v. split.
  - rewrite Hget. reflexivity.
  - rewrite Hv. reflexivity.
Defined.

Lemma constructor_speedSettings_witness :
  (~ (7 == 1)%Q /\ ~ (7 == 2)%Q)
  /\ misconfigured_pump =
       mkPump (mkWorld idle [Warn "Bad speed settings:" 7%Q]) 2 (mkStates 2) 1%Q.
Proof.
  assert (H1 : ~ (pumpRange (mkDevice "Pump 2" 7) == 1)%Q) by discriminate.
  assert (H2 : ~ (pumpRange (mkDevice "Pump 2" 7) == 2)%Q) by discriminate.
  split; [split; assumption|].
  destruct (constructor_speedSettings (world idle) (mkDevice "Pump 2" 7) 2)
    as (_ & Hbad & _).
  exact (Hbad H1 H2).
Defined.

End PumpProperties.

(** ** More on the pump: every handler, and runs of requests *)

Module PumpBehaviour.
Import spaClient Platform Runs PumpAccessory Spec.
Import PumpProperties.
Local Open Scope Z_scope.

(** Splits every test a handler makes, after the tests of the pump
    number. *)
Ltac split_tests :=
  repeat match goal with
         | |- context [if ?b then _ else _] => destruct b eqn:?; simpl
         end.

(** Opens [this] and a request and runs the handler on them. *)
Ltac run_request this r :=
  let s := fresh "s" in
  let tr := fresh "tr" in
  let n := fresh "n" in
  let last := fresh "last" in
  let settings := fresh "settings" in
  destruct this as [[s tr] n [last] settings];
  destruct r as [[|] | | ? |]; run; pump_cases n; split_tests.

(** Where a level of [speeds] sits in it. *)
Lemma indexOf_speeds (v : option string) :
  (JS.indexOf speeds v = 0 <-> v = Some "Off"%string)
  /\ (JS.indexOf speeds v = 1 <-> v = Some "Low"%string)
  /\ (JS.indexOf speeds v = 2 <-> v = Some "High"%string)
  /\ (JS.indexOf speeds v = -1 <->
      v <> Some "Off"%string /\ v <> Some "Low"%string /\ v <> Some "High"%string).
Proof.
  unfold JS.indexOf, speeds. simpl.
  repeat case_decide; subst; repeat split; intros; try discriminate;
    try congruence; try tauto; try (intuition congruence).
Qed.

(** [Math.round x] is the integer [k] with [k - 0.5 <= x < k + 0.5]. *)
Lemma Math_round_unique (x : Q) (k : Z) :
  (inject_Z k <= x + 0.5)%Q -> (x + 0.5 < inject_Z k + 1)%Q ->
  JS.Math_round x = k.
Proof.
  intros Hlow Hhigh. unfold JS.Math_round.
  assert (Hge : k <= Qfloor (x + 0.5)).
  { rewrite <- (Qfloor_Z k). now apply Qfloor_resp_le. }
  assert (Hlt : Qfloor (x + 0.5) < k + 1).
  { rewrite Zlt_Qlt, inject_Z_plus.
    eapply Qle_lt_trans; [apply Qfloor_le | exact Hhigh]. }
  lia.
Qed.

(** The scaled percentage, without the division. *)
Lemma scaled_percent (p s : Q) : (p * s / 100.0 == p * s * (1 # 100))%Q.
Proof. field. Qed.

(** The level of a percentage on a pump with two speed settings. *)
Lemma level_two_speeds (p s : Q) :
  (s == 2)%Q -> (0 <= p)%Q -> (p <= 100)%Q ->
  JS.Math_round (p * s / 100.0) =
    if JS.lt p 25 then 0 else if JS.lt p 75 then 1 else 2.
Proof.
  intros Hs Hlow Hhigh.
  destruct (Qlt_le_dec p 25) as [H25 | H25].
  - rewrite (JS_lt_true _ _ H25). apply Math_round_unique;
      rewrite scaled_percent, Hs; simpl; unfold inject_Z; lra.
  - rewrite (JS_lt_false _ _ H25).
    destruct (Qlt_le_dec p 75) as [H75 | H75].
    + rewrite (JS_lt_true _ _ H75). apply Math_round_unique;
        rewrite scaled_percent, Hs; simpl; unfold inject_Z; lra.
    + rewrite (JS_lt_false _ _ H75). apply Math_round_unique;
        rewrite scaled_percent, Hs; simpl; unfold inject_Z; lra.
Qed.

(** The level of a percentage on a pump with one speed setting. *)
Lemma level_one_speed (p s : Q) :
  (s == 1)%Q -> (0 <= p)%Q -> (p <= 100)%Q ->
  JS.Math_round (p * s / 100.0) = if JS.lt p 50 then 0 else 1.
Proof.
  intros Hs Hlow Hhigh.
  destruct (Qlt_le_dec p 50) as [H50 | H50].
  - rewrite (JS_lt_true _ _ H50). apply Math_round_unique;
      rewrite scaled_percent, Hs; simpl; unfold inject_Z; lra.
  - rewrite (JS_lt_false _ _ H50). apply Math_round_unique;
      rewrite scaled_percent, Hs; simpl; unfold inject_Z; lra.
Qed.

(** [speeds] has nothing outside its three positions. *)
Lemma index_outside_speeds (level : Z) :
  level < 0 \/ 2 < level -> JS.index speeds level = JS.undefined.
Proof.
  intros [Hneg | Hbig]; unfold JS.index.
  - apply Z.ltb_lt in Hneg. now rewrite Hneg.
  - destruct (level <? 0); [reflexivity|].
    apply lookup_ge_None. simpl. lia.
Qed.

Section WithSpa.
Context `{SpaClient Spa Flow}.

(** An invariant of the pump and a property of the events of each step
    carry over to a run. *)
Lemma handle_all_invariant (Inv : PumpAccessory Spa -> Prop)
    (Ok : Request -> Prop) (P : Event -> Prop) :
  (forall r this, Inv this -> Ok r ->
     Inv (exec (handle r) this)
     /\ exists evs, trace (platform (exec (handle r) this)) =
                      trace (platform this) ++ evs /\ Forall P evs) ->
  forall rs this, Inv this -> Forall Ok rs ->
    Inv (exec (handle_all rs) this)
    /\ exists evs, trace (platform (exec (handle_all rs) this)) =
                     trace (platform this) ++ evs /\ Forall P evs.
Proof.
  intros Hstep rs. induction rs as [|r rs IH]; intros this Hinv Hok.
  - split; [exact Hinv|]. exists []. split; [now rewrite app_nil_r | constructor].
  - inversion Hok as [|? ? Hr Hrs]; subst.
    destruct (Hstep r this Hinv Hr) as (Hinv1 & evs1 & Htr1 & Hevs1).
    destruct (IH _ Hinv1 Hrs) as (Hinv2 & evs2 & Htr2 & Hevs2).
    simpl. rewrite exec_seq. split; [exact Hinv2|].
    exists (evs1 ++ evs2). split.
    + now rewrite Htr2, Htr1, app_assoc.
    + apply Forall_app. now split.
Qed.

(** The events of one request concern no pump but this one. *)
Lemma handle_own_pump (r : Request) (this : PumpAccessory Spa) :
  exists evs, trace (platform (exec (handle r) this)) =
                trace (platform this) ++ evs
              /\ Forall (own_pump (pumpNumber this)) evs.
Proof.
  run_request this r;
    (eexists; split;
     [rewrite <- ?app_assoc; reflexivity
     | repeat constructor; simpl; lia]).
Qed.

(** X1. Every handler of the pump calls its callback exactly once, as the
    last thing it does, and never with an error; before that it makes at
    most one call on the spa, to the setter of its own pump, and what the
    spa has become is the result of that call. *)
Theorem handle_calls_back_once (r : Request) (this : PumpAccessory Spa) :
  exists (calls : list Call) (v : option value),
    trace (platform (exec (handle r) this)) =
      trace (platform this) ++ map Oracle calls ++ [Callback None v]
    /\ spa (platform (exec (handle r) this)) =
         fold_left (fun s c => perform c s) calls (spa (platform this))
    /\ (length calls <= 1)%nat
    /\ Forall (fun c => own_pump (pumpNumber this) (Oracle c)) calls.
Proof.
  run_request this r;
    first
      [ (exists []; eexists; split; [reflexivity|]; split; [reflexivity|];
         split; [simpl; lia | constructor])
      | (eexists [_]; eexists; split; [rewrite <- ?app_assoc; reflexivity|];
         split; [reflexivity|]; split; [simpl; lia|];
         repeat constructor; simpl; lia) ].
Qed.

(** X2. Over any run of requests a pump calls no setter of the spa but
    the one of its own number: every call on the spa in the trace is
    [set_pump1] for pump 1, [set_pump2] for pump 2, [set_pump3] for
    pump 3. *)
Theorem run_calls_own_pump_only (rs : list Request) (this : PumpAccessory Spa) :
  exists evs,
    trace (platform (exec (handle_all rs) this)) = trace (platform this) ++ evs
    /\ Forall (own_pump (pumpNumber this)) evs.
Proof.
  destruct (handle_all_invariant
              (fun this' => pumpNumber this' = pumpNumber this)
              (fun _ => True) (own_pump (pumpNumber this))) with (rs := rs) (this := this)
    as (_ & evs & Htrace & Hevs); try reflexivity.
  - intros r this' Hn _. split.
    + rewrite <- Hn. apply handle_fields.
    + rewrite <- Hn. apply handle_own_pump.
  - clear. induction rs; constructor; auto.
  - exists evs. now split.
Qed.

(** X3. A pump whose number is not 1, 2 or 3 never reaches the spa:
    over any run of requests the spa stays as it was and the trace gains
    nothing but callbacks; [getOn] answers false for it. *)
Theorem unknown_pump_never_reaches_spa (rs : list Request) (this : PumpAccessory Spa) :
  ~ (1 <= pumpNumber this <= 3) ->
  (spa (platform (exec (handle_all rs) this)) = spa (platform this)
   /\ exists evs,
        trace (platform (exec (handle_all rs) this)) = trace (platform this) ++ evs
        /\ Forall is_callback evs)
  /\ exec getOn this =
       mkPump (mkWorld (spa (platform this))
                 (trace (platform this) ++ [Callback None (Some (Bool false))]))
         (pumpNumber this) (states this) (speedSettings this).
Proof.
  intros Hn. split.
  - cut ((spa (platform (exec (handle_all rs) this)) = spa (platform this)
          /\ pumpNumber (exec (handle_all rs) this) = pumpNumber this)
         /\ exists evs,
              trace (platform (exec (handle_all rs) this)) =
                trace (platform this) ++ evs
              /\ Forall is_callback evs).
    { intros [[Hspa _] Hevs]. now split. }
    apply (handle_all_invariant
             (fun this' => spa (platform this') = spa (platform this)
                           /\ pumpNumber this' = pumpNumber this)
             (fun _ => True) is_callback).
    + intros r this' [Hspa Hnum] _. rewrite <- Hnum in Hn. rewrite <- Hspa. clear Hspa.
      rewrite <- Hnum. clear Hnum.
      run_request this' r; simpl in Hn; try lia;
        (split; [split; reflexivity|]; eexists; split;
         [reflexivity | repeat constructor]).
    + split; reflexivity.
    + clear. induction rs; constructor; auto.
  - destruct this as [[s tr] n [last] settings]. simpl in Hn.
    run. pump_cases n; try lia. reflexivity.
Qed.

(** X4. Gets change nothing.  A run of [getOn] and [getRotationSpeed]
    requests leaves the spa and the pump's own fields as they were; the
    trace gains one callback for each request, each without error and with
    a value. *)
Theorem gets_change_nothing (rs : list Request) (this : PumpAccessory Spa) :
  Forall pump_get rs ->
  exists evs,
    exec (handle_all rs) this =
      mkPump (mkWorld (spa (platform this)) (trace (platform this) ++ evs))
        (pumpNumber this) (states this) (speedSettings this)
    /\ Forall is_answer evs
    /\ length evs = length rs.
Proof.
  intros Hrs. revert this.
  induction Hrs as [|r rs Hr _ IH]; intros this.
  - exists []. rewrite app_nil_r. destruct this as [[s tr] n st settings].
    repeat split; constructor.
  - simpl. rewrite exec_seq.
    assert (Hstep : exists e,
      exec (handle r) this =
        mkPump (mkWorld (spa (platform this)) (trace (platform this) ++ [e]))
          (pumpNumber this) (states this) (speedSettings this)
      /\ is_answer e).
    { clear IH. run_request this r; try contradiction;
        (eexists; split; [reflexivity | exact I]). }
    destruct Hstep as (e & -> & He).
    destruct (IH (mkPump (mkWorld (spa (platform this)) (trace (platform this) ++ [e]))
                    (pumpNumber this) (states this) (speedSettings this)))
      as (evs & -> & Hevs & Hlen).
    exists (e :: evs). simpl. rewrite <- app_assoc. simpl.
    repeat split; [now constructor | now rewrite Hlen].
Qed.

(** X5. [getOn] answers false exactly when the spa reports the level Off
    for the pump; any other report reads as on, also one that is not in
    [speeds]. *)
Theorem getOn_off_iff (this : PumpAccessory Spa) :
  1 <= pumpNumber this <= 3 ->
  exists isOn : bool,
    exec getOn this =
      mkPump (mkWorld (spa (platform this))
                (trace (platform this) ++ [Callback None (Some (Bool isOn))]))
        (pumpNumber this) (states this) (speedSettings this)
    /\ (isOn = false <->
        get_pump (pumpNumber this) (spa (platform this)) = Some "Off"%string).
Proof.
  intros Hn.
  exists (negb (JS.indexOf speeds (get_pump (pumpNumber this) (spa (platform this))) =? 0)).
  split.
  - unfold exec, getOn, bind. rewrite (getSpeed_run this Hn).
    destruct this as [[s tr] n st settings]. reflexivity.
  - rewrite negb_false_iff, Z.eqb_eq. apply indexOf_speeds.
Qed.

(** X6. What [getRotationSpeed] answers for each report of the spa, on a
    pump with [s] speed settings, [s] being 1 or 2: 0 for Off, 100/s for
    Low, 200/s for High, and -100/s for a report that is not in
    [speeds]. *)
Theorem getRotationSpeed_answer (this : PumpAccessory Spa) :
  1 <= pumpNumber this <= 3 ->
  (speedSettings this == 1 \/ speedSettings this == 2)%Q ->
  let level := get_pump (pumpNumber this) (spa (platform this)) in
  let s := speedSettings this in
  exists v : Q,
    exec getRotationSpeed this =
      mkPump (mkWorld (spa (platform this))
                (trace (platform this) ++ [Callback None (Some (Number v))]))
        (pumpNumber this) (states this) (speedSettings this)
    /\ (level = Some "Off"%string -> v == 0)%Q
    /\ (level = Some "Low"%string -> v == 100 / s)%Q
    /\ (level = Some "High"%string -> v == 200 / s)%Q
    /\ (level <> Some "Off"%string -> level <> Some "Low"%string ->
        level <> Some "High"%string -> v == -100 / s)%Q.
Proof.
  intros Hn Hs level s.
  assert (Hnz : ~ (s == 0)%Q).
  { intros Hz. fold s in Hs. rewrite Hz in Hs. destruct Hs; discriminate. }
  exists (100.0 * inject_Z (JS.indexOf speeds level) / s)%Q. split.
  - unfold exec, getRotationSpeed, bind, gets. rewrite (getSpeed_run this Hn).
    destruct this as [[sp tr] n st settings]. reflexivity.
  - destruct (indexOf_speeds level) as (Hoff & Hlow & Hhigh & Hnone).
    repeat split.
    + intros Hl. apply Hoff in Hl. rewrite Hl. field. exact Hnz.
    + intros Hl. apply Hlow in Hl. rewrite Hl. field. exact Hnz.
    + intros Hl. apply Hhigh in Hl. rewrite Hl. field. exact Hnz.
    + intros H1 H2 H3. rewrite (proj2 Hnone (conj H1 (conj H2 H3))). field. exact Hnz.
Qed.

(** What the constructor leaves, whatever the configuration. *)
Lemma constructor_fields (w : World Spa) (accessory : Device) (n : Z) :
  pumpNumber (constructor w accessory n) = n
  /\ states (constructor w accessory n) = mkStates 2
  /\ spa (platform (constructor w accessory n)) = spa w
  /\ (speedSettings (constructor w accessory n) == 1
      \/ speedSettings (constructor w accessory n) == 2)%Q
  /\ ((pumpRange accessory == 2)%Q ->
      (speedSettings (constructor w accessory n) == 2)%Q)
  /\ (~ (pumpRange accessory == 2)%Q ->
      (speedSettings (constructor w accessory n) == 1)%Q).
Proof.
  unfold constructor, JS.neq. simpl.
  destruct (Qeq_bool (pumpRange accessory) 1) eqn:H1;
    destruct (Qeq_bool (pumpRange accessory) 2) eqn:H2; simpl.
  - apply Qeq_bool_iff in H1, H2. rewrite H1 in H2. discriminate.
  - apply Qeq_bool_iff in H1.
    repeat split; auto.
  - apply Qeq_bool_iff in H2.
    repeat split; auto; try (intros Hno; contradiction).
  - repeat split; auto;
      try (left; reflexivity); try (intros _; reflexivity).
    intros Htwo. apply Qeq_bool_iff in Htwo. congruence.
Qed.

(** X7. The level a percentage resolves to.  On a pump with two speed
    settings, a rotation speed below 25 writes Off, from 25 to below 75
    Low, and from 75 on High; with one speed setting, below 50 writes Off
    and from 50 on the handler writes [speeds[1]].  The last speed becomes
    the level when the level is not 0. *)
Theorem setRotationSpeed_level_of_percent (this : PumpAccessory Spa) (p : Q)
    (two : bool) :
  1 <= pumpNumber this <= 3 ->
  (speedSettings this == if two then 2 else 1)%Q ->
  (0 <= p)%Q -> (p <= 100)%Q ->
  let level :=
    if two then (if JS.lt p 25 then 0 else if JS.lt p 75 then 1 else 2)
    else (if JS.lt p 50 then 0 else 1) in
  let c := set_pump (pumpNumber this) (JS.index speeds level) in
  exec (setRotationSpeed p) this =
    mkPump (mkWorld (perform c (spa (platform this)))
              (trace (platform this) ++ [Oracle c; Callback None None]))
      (pumpNumber this)
      (if level =? 0 then states this else mkStates level)
      (speedSettings this).
Proof.
  intros Hn Hs Hlow Hhigh level c.
  rewrite (setRotationSpeed_run this p Hn).
  assert (Hlevel : JS.Math_round (p * speedSettings this / 100.0) = level).
  { subst level. destruct two.
    - now apply level_two_speeds.
    - now apply level_one_speed. }
  now rewrite Hlevel.
Qed.

(** X8. A rotation speed is not clamped.  When it resolves to a level
    outside [speeds] (below 0 or above 2), the handler writes [undefined]
    to the spa and remembers that level, so that the next on-toggle writes
    [undefined] again. *)
Theorem setRotationSpeed_outside_speeds (this : PumpAccessory Spa) (value : Q) :
  1 <= pumpNumber this <= 3 ->
  let level := JS.Math_round (value * speedSettings this / 100.0) in
  level < 0 \/ 2 < level ->
  let c := set_pump (pumpNumber this) JS.undefined in
  let set := exec (setRotationSpeed value) this in
  set =
    mkPump (mkWorld (perform c (spa (platform this)))
              (trace (platform this) ++ [Oracle c; Callback None None]))
      (pumpNumber this) (mkStates level) (speedSettings this)
  /\ trace (platform (exec (setOn true) set)) =
       trace (platform this) ++
         [Oracle c; Callback None None; Oracle c; Callback None None].
Proof.
  intros Hn level Hout c set.
  assert (Hset : set =
    mkPump (mkWorld (perform c (spa (platform this)))
              (trace (platform this) ++ [Oracle c; Callback None None]))
      (pumpNumber this) (mkStates level) (speedSettings this)).
  { subst set. rewrite (setRotationSpeed_run this value Hn). fold level.
    rewrite (index_outside_speeds level Hout). fold c.
    assert (Hnz : (level =? 0) = false) by (apply Z.eqb_neq; lia).
    now rewrite Hnz. }
  split; [exact Hset|].
  rewrite Hset, setOn_true_run; simpl; try lia.
  rewrite (index_outside_speeds level Hout). fold c.
  now rewrite <- app_assoc.
Qed.

(** X9. A rotation speed that resolves to level 0 does what turning the
    pump off does: the two handlers leave the same pump, spa and trace. *)
Theorem setRotationSpeed_zero_is_off (this : PumpAccessory Spa) (value : Q) :
  JS.Math_round (value * speedSettings this / 100.0) = 0 ->
  exec (setRotationSpeed value) this = exec (setOn false) this.
Proof.
  intros Hlevel. unfold exec, setRotationSpeed, setOn, bind, gets.
  now rewrite Hlevel.
Qed.

(** X10. A freshly constructed pump that is toggled on reports a rotation
    speed of 200/s: the spa returning the level written, [getRotationSpeed]
    then answers 100 on a pump configured with two speeds and 200 on any
    other. *)
Theorem fresh_pump_on_rotation_speed (w : World Spa) (accessory : Device) (n : Z) :
  1 <= n <= 3 ->
  returns_last_written n ->
  let on := exec (setOn true) (constructor w accessory n) in
  exists v : Q,
    exec getRotationSpeed on =
      mkPump (mkWorld (spa (platform on))
                (trace (platform on) ++ [Callback None (Some (Number v))]))
        (pumpNumber on) (states on) (speedSettings on)
    /\ ((pumpRange accessory == 2)%Q -> (v == 100)%Q)
    /\ (~ (pumpRange accessory == 2)%Q -> (v == 200)%Q).
Proof.
  intros Hn Hstore on.
  destruct (constructor_fields w accessory n)
    as (Hnum & Hstates & _ & _ & Htwo & Hone).
  assert (Hon : on =
    mkPump (mkWorld (perform (set_pump n (JS.index speeds 2))
                       (spa (platform (constructor w accessory n))))
              (trace (platform (constructor w accessory n)) ++
                 [Oracle (set_pump n (JS.index speeds 2)); Callback None None]))
      n (mkStates 2) (speedSettings (constructor w accessory n))).
  { subst on. rewrite setOn_true_run; rewrite ?Hnum, ?Hstates; simpl; auto; lia. }
  exists (100.0 * inject_Z 2 / speedSettings (constructor w accessory n))%Q.
  split.
  - clearbody on. subst on.
    unfold exec, getRotationSpeed, bind, gets.
    rewrite getSpeed_run by exact Hn. simpl.
    rewrite (Hstore _ _). rewrite (indexOf_index 2) by lia. reflexivity.
  - split; intros Hrange.
    + rewrite (Htwo Hrange). reflexivity.
    + rewrite (Hone Hrange). reflexivity.
Qed.

(** Closes a goal that every event of a list writes a level. *)
Ltac levels :=
  simpl;
  repeat match goal with
         | |- Forall _ (_ :: _) => constructor
         | |- Forall _ [] => constructor
         end;
  simpl;
  first [ exact I | left; reflexivity | right; left; reflexivity
        | right; right; reflexivity ].

(** One request keeps the speed settings at 1 or 2 and the last speed at
    1 or 2, and writes nothing but a level of [speeds], when the rotation
    speed it sets, if any, is a percentage. *)
Lemma handle_levels (r : Request) (this : PumpAccessory Spa) :
  ((speedSettings this == 1 \/ speedSettings this == 2)%Q
   /\ (lastSpeed (states this) = 1 \/ lastSpeed (states this) = 2)) ->
  percentage r ->
  ((speedSettings (exec (handle r) this) == 1
    \/ speedSettings (exec (handle r) this) == 2)%Q
   /\ (lastSpeed (states (exec (handle r) this)) = 1
       \/ lastSpeed (states (exec (handle r) this)) = 2))
  /\ exists evs,
       trace (platform (exec (handle r) this)) = trace (platform this) ++ evs
       /\ Forall writes_level evs.
Proof.
  intros [Hs Hlast] Hr.
  destruct r as [[|] | | value |].
  - destruct this as [[s tr] n [last] settings]. simpl in *.
    run. destruct Hlast as [-> | ->]; simpl; pump_cases n;
      (split; [split; auto|]; eexists; split;
       [rewrite <- ?app_assoc; reflexivity | levels]).
  - destruct this as [[s tr] n [last] settings]. simpl in *.
    run. pump_cases n;
      (split; [split; auto|]; eexists; split;
       [rewrite <- ?app_assoc; reflexivity | levels]).
  - destruct this as [[s tr] n [last] settings]. simpl in *.
    run. pump_cases n; split_tests;
      (split; [split; auto|]; eexists; split;
       [rewrite <- ?app_assoc; reflexivity | levels]).
  - destruct Hr as [Hlow Hhigh].
    assert (Hlevel : 0 <= JS.Math_round (value * speedSettings this / 100.0) <= 2).
    { destruct Hs as [Hs | Hs].
      - pose proof (Math_round_percent value _ 1 Hs ltac:(lia) Hlow Hhigh). lia.
      - pose proof (Math_round_percent value _ 2 Hs ltac:(lia) Hlow Hhigh). lia. }
    destruct this as [[s tr] n [last] settings]. simpl in *.
    run.
    assert (Hcases : JS.Math_round (value * settings / 100.0) = 0
                     \/ JS.Math_round (value * settings / 100.0) = 1
                     \/ JS.Math_round (value * settings / 100.0) = 2) by lia.
    destruct Hcases as [-> | [-> | ->]]; simpl; pump_cases n;
      (split; [split; auto|]; eexists; split;
       [rewrite <- ?app_assoc; reflexivity | levels]).
  - destruct this as [[s tr] n [last] settings]. simpl in *.
    run. pump_cases n; split_tests;
      (split; [split; auto|]; eexists; split;
       [rewrite <- ?app_assoc; reflexivity | levels]).
Qed.

(** X11. From its construction on, whatever the configuration, a pump that
    is only asked for percentages (rotation speeds from 0 to 100) keeps 1
    or 2 as its last speed and writes nothing to the spa but Off, Low or
    High: never [undefined], and an on-toggle never writes Off. *)
Theorem run_writes_levels (w : World Spa) (accessory : Device) (n : Z)
    (rs : list Request) :
  Forall percentage rs ->
  let this := constructor w accessory n in
  (lastSpeed (states (exec (handle_all rs) this)) = 1
   \/ lastSpeed (states (exec (handle_all rs) this)) = 2)
  /\ exists evs,
       trace (platform (exec (handle_all rs) this)) = trace (platform this) ++ evs
       /\ Forall writes_level evs.
Proof.
  intros Hrs this.
  destruct (constructor_fields w accessory n) as (_ & Hstates & _ & Hs & _).
  destruct (handle_all_invariant
              (fun this' =>
                 (speedSettings this' == 1 \/ speedSettings this' == 2)%Q
                 /\ (lastSpeed (states this') = 1 \/ lastSpeed (states this') = 2))
              percentage writes_level handle_levels rs this)
    as ([_ Hlast] & Hevs); [|exact Hrs|now split].
  split; [exact Hs|]. subst this. rewrite Hstates. now right.
Qed.

End WithSpa.

(** The statements above at the spa that stores what it is told. *)

Import StoreSpa Examples Scenes.

Lemma unknown_pump_never_reaches_spa_witness :
  ~ (1 <= pumpNumber stray_pump <= 3)
  /\ spa (platform (exec (handle_all set_off_on) stray_pump)) = idle.
Proof.
  assert (Hn : ~ (1 <= pumpNumber stray_pump <= 3)) by (simpl; lia).
  split; [exact Hn|].
  destruct (unknown_pump_never_reaches_spa set_off_on stray_pump Hn) as [[Hspa _] _].
  rewrite Hspa. reflexivity.
Defined.

Lemma gets_change_nothing_witness :
  Forall pump_get [GetOn; GetRotationSpeed]
  /\ spa (platform (exec (handle_all [GetOn; GetRotationSpeed]) two_speed_pump)) = idle.
Proof.
  assert (Hrs : Forall pump_get [GetOn; GetRotationSpeed])
    by (repeat constructor).
  split; [exact Hrs|].
  destruct (gets_change_nothing [GetOn; GetRotationSpeed] two_speed_pump Hrs)
    as (evs & Hrun & _).
  rewrite Hrun. reflexivity.
Defined.

Lemma getOn_off_iff_witness :
  1 <= pumpNumber two_speed_pump <= 3
  /\ exists isOn : bool,
       trace (platform (exec getOn two_speed_pump)) =
         [Callback None (Some (Bool isOn))]
       /\ isOn = false.
Proof.
  assert (Hn : 1 <= pumpNumber two_speed_pump <= 3) by (simpl; lia).
  split; [exact Hn|].
  destruct (getOn_off_iff two_speed_pump Hn) as (isOn & Hrun & Hoff).
  exists isOn. split; [rewrite Hrun; reflexivity|].
  apply Hoff. reflexivity.
Defined.

Lemma getRotationSpeed_answer_witness :
  (1 <= pumpNumber two_speed_pump <= 3 /\ (speedSettings two_speed_pump == 2)%Q)
  /\ exists v : Q,
       trace (platform (exec getRotationSpeed two_speed_pump)) =
         [Callback None (Some (Number v))]
       /\ (v == 0)%Q.
Proof.
  assert (Hn : 1 <= pumpNumber two_speed_pump <= 3) by (simpl; lia).
  assert (Hs : (speedSettings two_speed_pump == 2)%Q) by reflexivity.
  split; [auto|].
  destruct (getRotationSpeed_answer two_speed_pump Hn (or_intror Hs))
    as (v & Hrun & Hoff & _).
  exists v. split; [rewrite Hrun; reflexivity|].
  apply Hoff. reflexivity.
Defined.

Lemma setRotationSpeed_level_of_percent_witness :
  (1 <= pumpNumber two_speed_pump <= 3 /\ (speedSettings two_speed_pump == 2)%Q
   /\ (0 <= 74)%Q /\ (74 <= 100)%Q)
  /\ trace (platform (exec (setRotationSpeed 74) two_speed_pump)) =
       [Oracle (Set_pump1 (Some "Low"%string)); Callback None None].
Proof.
  assert (Hn : 1 <= pumpNumber two_speed_pump <= 3) by (simpl; lia).
  assert (Hs : (speedSettings two_speed_pump == 2)%Q) by reflexivity.
  assert (Hlow : (0 <= 74)%Q) by discriminate.
  assert (Hhigh : (74 <= 100)%Q) by discriminate.
  split; [auto|].
  rewrite (setRotationSpeed_level_of_percent two_speed_pump 74%Q true Hn Hs Hlow Hhigh).
  reflexivity.
Defined.

Lemma setRotationSpeed_outside_speeds_witness :
  (1 <= pumpNumber one_speed_pump <= 3
   /\ 2 < JS.Math_round (300 * speedSettings one_speed_pump / 100.0))
  /\ trace (platform (exec (setOn true)
                        (exec (setRotationSpeed 300) one_speed_pump))) =
       [Oracle (Set_pump1 None); Callback None None;
        Oracle (Set_pump1 None); Callback None None].
Proof.
  assert (Hn : 1 <= pumpNumber one_speed_pump <= 3) by (simpl; lia).
  assert (Hout : 2 < JS.Math_round (300 * speedSettings one_speed_pump / 100.0))
    by reflexivity.
  split; [auto|].
  destruct (setRotationSpeed_outside_speeds one_speed_pump 300%Q Hn (or_intror Hout))
    as [_ Hon].
  rewrite Hon. reflexivity.
Defined.

Lemma setRotationSpeed_zero_is_off_witness :
  JS.Math_round (10 * speedSettings two_speed_pump / 100.0) = 0
  /\ exec (setRotationSpeed 10) two_speed_pump = exec (setOn false) two_speed_pump.
Proof.
  assert (Hlevel : JS.Math_round (10 * speedSettings two_speed_pump / 100.0) = 0)
    by reflexivity.
  split; [exact Hlevel|].
  exact (setRotationSpeed_zero_is_off two_speed_pump 10%Q Hlevel).
Defined.

Lemma fresh_pump_on_rotation_speed_witness :
  (1 <= 1 <= 3 /\ returns_last_written 1 /\ ~ (1 == 2)%Q)
  /\ exists v : Q,
       trace (platform (exec getRotationSpeed (exec (setOn true) one_speed_pump))) =
         [Oracle (Set_pump1 (Some "High"%string)); Callback None None;
          Callback None (Some (Number v))]
       /\ (v == 200)%Q.
Proof.
  assert (Hn : 1 <= 1 <= 3) by lia.
  assert (Hstore : returns_last_written 1) by (intros v s; reflexivity).
  assert (Hrange : ~ (pumpRange (mkDevice "Pump 1" 1) == 2)%Q) by discriminate.
  split; [auto|].
  destruct (fresh_pump_on_rotation_speed (world idle) (mkDevice "Pump 1" 1) 1 Hn Hstore)
    as (v & Hrun & _ & Hone).
  exists v. split; [|exact (Hone Hrange)].
  unfold one_speed_pump. rewrite Hrun. reflexivity.
Defined.

Lemma run_writes_levels_witness :
  Forall percentage set_off_on
  /\ (lastSpeed (states (exec (handle_all set_off_on) two_speed_pump)) = 1
      \/ lastSpeed (states (exec (handle_all set_off_on) two_speed_pump)) = 2).
Proof.
  assert (Hrs : Forall percentage set_off_on).
  { repeat constructor; discriminate. }
  split; [exact Hrs|].
  exact (proj1 (run_writes_levels (world idle) (mkDevice "Pump 1" 2) 1 set_off_on Hrs)).
Defined.

End PumpBehaviour.

(** ** More on the thermostat: every handler, and runs of requests *)

Module ThermostatBehaviour.
Import spaClient Platform Runs ThermostatAccessory.
Import Characteristic.
Local Open Scope Q_scope.

Ltac run :=
  unfold exec, handle, setTargetTemperature, setTargetHeatingState,
    getTargetHeatingState, getTargetTemperature, getCurrentTemperature,
    getTemperatureDisplayUnits, getHeatingState, storeTargetTemperature,
    applyTargetHeatingState, setTargetTempMinMax,
    bind, ask, call, emit, gets, modify, ret; simpl.

Ltac split_tests :=
  repeat match goal with
         | |- context [if ?b then _ else _] => destruct b eqn:?; simpl
         end.

Section WithSpa.
Context `{SpaClient Spa Flow}.

(** X12. A mode request that passes the two flow checks (Off while the
    flow is not good, anything else while the flow has not failed) sets
    the spa's range to high exactly when the request is Heat: Cool, Off
    and any other number select the low range.  The handler then sets the
    widest range on TargetTemperature, publishes the target temperature
    that the spa reports after the change, and calls back without
    error. *)
Theorem setTargetHeatingState_accepted (w : World Spa) (value : Q) :
  (value == TargetHeatingCoolingState.OFF -> getFlowState (spa w) <> FLOW_GOOD) ->
  (~ value == TargetHeatingCoolingState.OFF -> getFlowState (spa w) <> FLOW_FAILED) ->
  let high := Qeq_bool value TargetHeatingCoolingState.HEAT in
  let s' := setTempRangeIsHigh high (spa w) in
  exec (setTargetHeatingState value) w =
    mkWorld s'
      (trace w ++
         [Oracle (SetTempRangeIsHigh high);
          SetProps TargetTemperature 10.0 40.0 0.5;
          UpdateValue TargetTemperature (getTargetTemp s');
          Callback None None])
  /\ (high = true <-> value == TargetHeatingCoolingState.HEAT).
Proof.
  intros Hoff Hother high s'. split; [|apply Qeq_bool_iff].
  run. destruct (Qeq_bool value TargetHeatingCoolingState.OFF) eqn:Hv; simpl.
  - apply Qeq_bool_iff in Hv.
    rewrite bool_decide_eq_false_2 by (apply Hoff; exact Hv).
    simpl. now rewrite <- !app_assoc.
  - assert (Hne : ~ value == TargetHeatingCoolingState.OFF).
    { intros Heq. apply Qeq_bool_iff in Heq. congruence. }
    rewrite bool_decide_eq_false_2 by (apply Hother; exact Hne).
    simpl. now rewrite <- !app_assoc.
Qed.

(** X13. The mode read back is the mode set.  With a spa that reports the
    range last written and whose flow state a range change leaves alone:
    after Off during a flow failure, or Heat or Cool with the flow good,
    [getTargetHeatingState] answers the value that was set. *)
Theorem heating_state_round_trip (w : World Spa) (value : Q) :
  FLOW_GOOD <> FLOW_FAILED ->
  (forall b s, getTempRangeIsHigh (setTempRangeIsHigh b s) = b) ->
  (forall b s, getFlowState (setTempRangeIsHigh b s) = getFlowState s) ->
  (value == TargetHeatingCoolingState.OFF /\ getFlowState (spa w) = FLOW_FAILED)
  \/ ((value == TargetHeatingCoolingState.HEAT
       \/ value == TargetHeatingCoolingState.COOL)
      /\ getFlowState (spa w) = FLOW_GOOD) ->
  let w' := exec (setTargetHeatingState value) w in
  exists result : Q,
    exec getTargetHeatingState w' =
      mkWorld (spa w') (trace w' ++ [Callback None (Some (Number result))])
    /\ result == value.
Proof.
  intros Hdistinct Hrange Hflow Hcase w'.
  assert (Hw' : spa w' = setTempRangeIsHigh
                           (Qeq_bool value TargetHeatingCoolingState.HEAT) (spa w)).
  { subst w'. run.
    destruct Hcase as [[Hv Hf] | [Hv Hf]].
    - rewrite (Qeq_bool_true _ _ Hv). simpl.
      rewrite Hf, bool_decide_eq_false_2 by (intros Heq; apply Hdistinct; now symmetry).
      reflexivity.
    - assert (Hne : ~ value == TargetHeatingCoolingState.OFF).
      { intros Heq. rewrite Heq in Hv. destruct Hv; discriminate. }
      rewrite (Qeq_bool_false _ _ Hne). simpl.
      rewrite Hf, bool_decide_eq_false_2 by exact Hdistinct.
      reflexivity. }
  clearbody w'. destruct w' as [s' tr']. simpl in Hw'. subst s'.
  eexists. split; [run; reflexivity|].
  rewrite Hrange, Hflow.
  destruct Hcase as [[Hv Hf] | [[Hv | Hv] Hf]]; rewrite Hf.
  - rewrite bool_decide_eq_true_2 by reflexivity. now rewrite Hv.
  - rewrite bool_decide_eq_false_2 by exact Hdistinct.
    rewrite (Qeq_bool_true _ _ Hv). now rewrite Hv.
  - rewrite bool_decide_eq_false_2 by exact Hdistinct.
    assert (Hne : ~ value == TargetHeatingCoolingState.HEAT).
    { intros Heq. rewrite Heq in Hv. discriminate. }
    rewrite (Qeq_bool_false _ _ Hne). now rewrite Hv.
Qed.

(** X14. A change of mode moves the bound that [setTargetTemperature]
    checks.  With a spa that reports the range last written: once Heat has
    been accepted a target below 26.5 is refused, and once any other mode
    has been accepted a target above 36.0 is refused, the bound being
    published and the spa left as the mode change left it. *)
Theorem mode_change_moves_bound (w : World Spa) (value temp : Q) :
  (forall b s, getTempRangeIsHigh (setTempRangeIsHigh b s) = b) ->
  ~ value == TargetHeatingCoolingState.OFF ->
  getFlowState (spa w) <> FLOW_FAILED ->
  let high := Qeq_bool value TargetHeatingCoolingState.HEAT in
  (if high then temp < 26.5 else 36.0 < temp) ->
  let w' := exec (setTargetHeatingState value) w in
  exec (setTargetTemperature temp) w' =
    mkWorld (spa w')
      (trace w' ++
         [UpdateValue TargetTemperature (if high then 26.5 else 36.0);
          Callback (Error (if high then "Temperature out of bounds [26.5,40.0]"
                           else "Temperature out of bounds [10.0,36.0]")) None]).
Proof.
  intros Hrange Hne Hflow high Hout w'.
  assert (Hw' : spa w' = setTempRangeIsHigh high (spa w)).
  { subst w'. run. rewrite (Qeq_bool_false _ _ Hne). simpl.
    now rewrite bool_decide_eq_false_2 by exact Hflow. }
  clearbody w'. destruct w' as [s' tr']. simpl in Hw'. subst s'.
  run. rewrite Hrange. destruct high.
  - rewrite (JS_lt_true _ _ Hout). simpl. now rewrite <- app_assoc.
  - unfold JS.gt. rewrite (JS_lt_true _ _ Hout). simpl. now rewrite <- app_assoc.
Qed.

(** X15. Every handler of the thermostat calls its callback exactly once,
    as the last thing it does.  When the callback gets an error, the
    handler has made no call on the spa, which is as it was, and hands over
    no value; a get never gives an error, hands over a value and does
    nothing else. *)
Theorem thermostat_calls_back_once (r : ThermostatRequest) (w : World Spa) :
  exists (before : list Event) (err : option string) (v : option value),
    trace (exec (handle r) w) = trace w ++ before ++ [Callback err v]
    /\ Forall (fun e => ~ is_callback e) before
    /\ (err <> None ->
        spa (exec (handle r) w) = spa w
        /\ v = None
        /\ Forall (fun e => forall c, e <> Oracle c) before)
    /\ (thermostat_get r ->
        before = [] /\ err = None /\ v <> None /\ spa (exec (handle r) w) = spa w).
Proof.
  destruct w as [s tr].
  destruct r as [ | | | | value | | value].
  - exists []. eexists. eexists. split; [reflexivity|]. split; [constructor|].
    split; [intros Herr; contradiction|].
    intros _. repeat split. discriminate.
  - exists []. eexists. eexists. split; [reflexivity|]. split; [constructor|].
    split; [intros Herr; contradiction|].
    intros _. repeat split. discriminate.
  - exists []. eexists. eexists. split; [reflexivity|]. split; [constructor|].
    split; [intros Herr; contradiction|].
    intros _. repeat split. discriminate.
  - exists []. eexists. eexists. split; [reflexivity|]. split; [constructor|].
    split; [intros Herr; contradiction|].
    intros _. repeat split. discriminate.
  - run.
    destruct (Qeq_bool value TargetHeatingCoolingState.OFF); simpl;
      match goal with
      | |- context [bool_decide ?P] => destruct (bool_decide P); simpl
      end;
      rewrite <- ?app_assoc; simpl;
      first
        [ (exists []; eexists; eexists; split; [reflexivity|];
           split; [constructor|]; split;
           [intros _; repeat split; constructor | intros Hget; contradiction])
        | (eexists [_; _; _]; eexists; eexists; split; [reflexivity|];
           split; [repeat constructor; simpl; tauto|]; split;
           [intros Herr; contradiction | intros Hget; contradiction]) ].
  - exists []. eexists. eexists. split; [reflexivity|]. split; [constructor|].
    split; [intros Herr; contradiction|].
    intros _. repeat split. discriminate.
  - run.
    destruct (getTempRangeIsHigh s); simpl;
      [destruct (JS.lt value 26.5) | destruct (JS.gt value 36.0)]; simpl;
      rewrite <- ?app_assoc; simpl;
      eexists [_]; eexists; eexists; (split; [reflexivity|]);
      (split; [repeat constructor; simpl; tauto|]);
      (split; [| intros Hget; contradiction]);
      first
        [ (intros Herr; contradiction)
        | (intros _; repeat split; repeat constructor; discriminate) ].
Qed.



(** X17. Gets change nothing.  A run of the thermostat's five gets leaves
    the spa as it was; the trace gains one callback for each request, each
    without error and with a value. *)
Theorem thermostat_gets_change_nothing (rs : list ThermostatRequest) (w : World Spa) :
  Forall thermostat_get rs ->
  exists evs,
    exec (handle_all rs) w = mkWorld (spa w) (trace w ++ evs)
    /\ Forall is_answer evs
    /\ length evs = length rs.
Proof.
  intros Hrs. revert w.
  induction Hrs as [|r rs Hr _ IH]; intros w.
  - exists []. rewrite app_nil_r. destruct w. repeat split; constructor.
  - simpl. rewrite PumpProperties.exec_seq.
    assert (Hstep : exists e,
      exec (handle r) w = mkWorld (spa w) (trace w ++ [e]) /\ is_answer e).
    { clear IH. destruct w as [s tr].
      destruct r; try contradiction;
        (eexists; split; [reflexivity | exact I]). }
    destruct Hstep as (e & -> & He).
    destruct (IH (mkWorld (spa w) (trace w ++ [e]))) as (evs & -> & Hevs & Hlen).
    exists (e :: evs). simpl. rewrite <- app_assoc. simpl.
    repeat split; [now constructor | now rewrite Hlen].
Qed.

End WithSpa.

(** The statements above at the spa that stores what it is told. *)

Import StoreSpa.

Lemma setTargetHeatingState_accepted_witness :
  ((3 == TargetHeatingCoolingState.OFF -> getFlowState (spa (world idle)) <> FLOW_GOOD)
   /\ (~ 3 == TargetHeatingCoolingState.OFF ->
       getFlowState (spa (world idle)) <> FLOW_FAILED))
  /\ tempRangeIsHigh
       (spa (exec (setTargetHeatingState TargetHeatingCoolingState.AUTO) (world idle))) =
     false.
Proof.
  assert (Hoff : 3 == TargetHeatingCoolingState.OFF ->
                 getFlowState (spa (world idle)) <> FLOW_GOOD) by discriminate.
  assert (Hother : ~ 3 == TargetHeatingCoolingState.OFF ->
                   getFlowState (spa (world idle)) <> FLOW_FAILED)
    by (intros _; discriminate).
  split; [auto|].
  destruct (setTargetHeatingState_accepted (world idle) 3 Hoff Hother) as [Hrun _].
  unfold TargetHeatingCoolingState.AUTO. rewrite Hrun. reflexivity.
Defined.

Lemma heating_state_round_trip_witness :
  (Good <> Failed
   /\ 1 == TargetHeatingCoolingState.HEAT
   /\ getFlowState (spa (world (with_range false idle))) = FLOW_GOOD)
  /\ exists result : Q,
       trace (exec getTargetHeatingState
                (exec (setTargetHeatingState 1) (world (with_range false idle)))) =
         [Oracle (SetTempRangeIsHigh true);
          SetProps TargetTemperature 10.0 40.0 0.5;
          UpdateValue TargetTemperature 38.0;
          Callback None None;
          Callback None (Some (Number result))]
       /\ result == 1.
Proof.
  assert (Hdistinct : Good <> Failed) by discriminate.
  assert (Hheat : 1 == TargetHeatingCoolingState.HEAT) by reflexivity.
  assert (Hflow : getFlowState (spa (world (with_range false idle))) = FLOW_GOOD)
    by reflexivity.
  split; [auto|].
  destruct (@heating_state_round_trip State FlowState client
              (world (with_range false idle)) 1 Hdistinct
              (fun b s => eq_refl) (fun b s => eq_refl)
              (or_intror (conj (or_introl Hheat) Hflow)))
    as (result & Hrun & Hresult).
  exists result. split; [rewrite Hrun; reflexivity | exact Hresult].
Defined.

Lemma mode_change_moves_bound_witness :
  (~ 2 == TargetHeatingCoolingState.OFF
   /\ getFlowState (spa (world idle)) <> FLOW_FAILED
   /\ 36.0 < 37.0)
  /\ trace (exec (setTargetTemperature 37.0)
              (exec (setTargetHeatingState 2) (world idle))) =
       [Oracle (SetTempRangeIsHigh false);
        SetProps TargetTemperature 10.0 40.0 0.5;
        UpdateValue TargetTemperature 38.0;
        Callback None None;
        UpdateValue TargetTemperature 36.0;
        Callback (Error "Temperature out of bounds [10.0,36.0]") None].
Proof.
  assert (Hne : ~ 2 == TargetHeatingCoolingState.OFF) by discriminate.
  assert (Hflow : getFlowState (spa (world idle)) <> FLOW_FAILED) by discriminate.
  assert (Hout : 36.0 < 37.0) by reflexivity.
  split; [auto|].
  assert (Hrange : forall b (s : State),
             getTempRangeIsHigh (setTempRangeIsHigh b s) = b)
    by (intros b s; reflexivity).
  rewrite (@mode_change_moves_bound State FlowState client (world idle) 2 37.0
             Hrange Hne Hflow Hout).
  reflexivity.
Defined.

Lemma thermostat_gets_change_nothing_witness :
  Forall thermostat_get [GetCurrentTemperature; GetTargetHeatingState]
  /\ spa (exec (handle_all [GetCurrentTemperature; GetTargetHeatingState])
            (world idle)) = idle.
Proof.
  assert (Hrs : Forall thermostat_get [GetCurrentTemperature; GetTargetHeatingState])
    by (repeat constructor).
  split; [exact Hrs|].
  destruct (thermostat_gets_change_nothing
              [GetCurrentTemperature; GetTargetHeatingState] (world idle) Hrs)
    as (evs & Hrun & _).
  rewrite Hrun. reflexivity.
Defined.

End ThermostatBehaviour.
